(** * gatsby-theme-kuworking-core: the theme's gatsby-node hooks

    A shallow embedding of [onCreatePage], [onCreateNode] and [createPages]
    (the theme's lifecycle hooks) and the properties of slugs, tags and
    pagination that the specification states about them.

    Conventions of the embedding:
    - a JavaScript string is its sequence of UTF-16 code units ([list N]);
    - a call into the host ([createPage], [deletePage], [createNode], ...) is
      an entry of the list of actions a hook returns, in call order;
    - an exception is an explicit outcome ([Throw], [Threw]);
    - functions of other packages ([urlResolve], [createFilePath],
      [String.prototype.normalize], [crypto], [JSON.stringify], the host's
      [getNode] and [createNodeId]) are section variables;
    - the theme options are the record [withDefaults(themeOptions)] returns. *)

From Stdlib Require Import ZArith Lia Ascii String.
From stdpp Require Import gmap list.

Open Scope N_scope.

(** ** JavaScript strings *)

Abbreviation jsstring := (list N).

(** An ASCII literal as a JavaScript string. *)
Definition js (s : string) : jsstring :=
  List.map N_of_ascii (list_ascii_of_string s).

Definition slash : N := 47.
Definition dot : N := 46.
Definition comma : N := 44.
Definition space : N := 32.
Definition dash : N := 45.

(** [s.startsWith(pre)], on code units. *)
Fixpoint starts_with (pre s : jsstring) : bool :=
  match pre, s with
  | [], _ => true
  | _ :: _, [] => false
  | a :: pre', b :: s' => (a =? b) && starts_with pre' s'
  end.

(** [s.includes(sub)]: [sub] starts at some position of [s]. *)
Fixpoint includes (s sub : jsstring) : bool :=
  starts_with sub s ||
  match s with
  | [] => false
  | _ :: s' => includes s' sub
  end.

(** [s.endsWith("/")]. *)
Fixpoint ends_with_slash (s : jsstring) : bool :=
  match s with
  | [] => false
  | c :: s' =>
      match s' with
      | [] => c =? slash
      | _ :: _ => ends_with_slash s'
      end
  end.

(** [s.replace(/\/$/, ``)]: the pattern matches one slash at the very end of
    the string (no [m] flag), and that slash is dropped. *)
Fixpoint remove_final_slash (s : jsstring) : jsstring :=
  match s with
  | [] => []
  | c :: s' =>
      match s' with
      | [] => if c =? slash then [] else [c]
      | _ :: _ => c :: remove_final_slash s'
      end
  end.

(** [const replacePath = _path => (_path === `/` ? _path : _path.replace(/\/$/, ``))] *)
Definition replacePath (_path : jsstring) : jsstring :=
  if decide (_path = js "/") then _path else remove_final_slash _path.

(** [s.split(sep)] for a separator of one code unit: never empty, and the
    pieces joined by [sep] give [s] back. *)
Fixpoint split (sep : N) (s : jsstring) : list jsstring :=
  match s with
  | [] => [[]]
  | c :: s' =>
      if c =? sep then [] :: split sep s'
      else match split sep s' with
           | piece :: rest => (c :: piece) :: rest
           | [] => [[c]]
           end
  end.

(** [pieces.pop()] read as a string: the last piece. *)
Definition pop (pieces : list jsstring) : jsstring := List.last pieces [].

(** ECMAScript [WhiteSpace] and [LineTerminator] code points, the ones
    [String.prototype.trim] strips. *)
Definition is_line_terminator (c : N) : bool :=
  (c =? 0x0A) || (c =? 0x0D) || (c =? 0x2028) || (c =? 0x2029).

Definition is_white_space (c : N) : bool :=
  (c =? 0x09) || (c =? 0x0B) || (c =? 0x0C) || (c =? 0x20) || (c =? 0xA0)
  || (c =? 0xFEFF) || (c =? 0x1680) || ((0x2000 <=? c) && (c <=? 0x200A))
  || (c =? 0x202F) || (c =? 0x205F) || (c =? 0x3000).

Definition is_trimmed_char (c : N) : bool :=
  is_white_space c || is_line_terminator c.

Fixpoint trimStart (s : jsstring) : jsstring :=
  match s with
  | [] => []
  | c :: s' => if is_trimmed_char c then trimStart s' else s
  end.

Fixpoint trimEnd (s : jsstring) : jsstring :=
  match s with
  | [] => []
  | c :: s' =>
      match trimEnd s' with
      | [] => if is_trimmed_char c then [] else [c]
      | r => c :: r
      end
  end.

(** [s.trim()] *)
Definition trim (s : jsstring) : jsstring := trimEnd (trimStart s).

(** The class [\u0300-\u036f]: the combining diacritical marks. *)
Definition is_combining_diacritic (c : N) : bool :=
  (0x0300 <=? c) && (c <=? 0x036F).

(** [s.replace(/[\u0300-\u036f]/g, '')] *)
Definition remove_diacritics (s : jsstring) : jsstring :=
  List.filter (fun c => negb (is_combining_diacritic c)) s.

(** [s.replace(/ /g, '-')] *)
Definition spaces_to_dashes (s : jsstring) : jsstring :=
  List.map (fun c => if c =? space then dash else c) s.

Definition is_digit (c : N) : bool := (0x30 <=? c) && (c <=? 0x39).

(** [/^.\d{4}\.\d{2}\.\d{2}\./.test(s)]: any character but a line
    terminator, then [dddd.dd.dd.]. *)
Definition starts_with_date (s : jsstring) : bool :=
  match s with
  | c :: y1 :: y2 :: y3 :: y4 :: p1 :: m1 :: m2 :: p2 :: d1 :: d2 :: p3 :: _ =>
      negb (is_line_terminator c)
      && is_digit y1 && is_digit y2 && is_digit y3 && is_digit y4
      && (p1 =? dot) && is_digit m1 && is_digit m2
      && (p2 =? dot) && is_digit d1 && is_digit d2
      && (p3 =? dot)
  | _ => false
  end.

(** The decimal digits of a count, as [`${n}`] prints it. *)
Fixpoint uint_codes (d : Decimal.uint) : jsstring :=
  match d with
  | Decimal.Nil => []
  | Decimal.D0 d => 0x30 :: uint_codes d
  | Decimal.D1 d => 0x31 :: uint_codes d
  | Decimal.D2 d => 0x32 :: uint_codes d
  | Decimal.D3 d => 0x33 :: uint_codes d
  | Decimal.D4 d => 0x34 :: uint_codes d
  | Decimal.D5 d => 0x35 :: uint_codes d
  | Decimal.D6 d => 0x36 :: uint_codes d
  | Decimal.D7 d => 0x37 :: uint_codes d
  | Decimal.D8 d => 0x38 :: uint_codes d
  | Decimal.D9 d => 0x39 :: uint_codes d
  end.

Definition number_to_string (n : nat) : jsstring := uint_codes (Nat.to_uint n).

(** ** JavaScript values and errors *)

(** The values a front-matter field or a page context entry holds. *)
Inductive jsval :=
  | VUndefined
  | VNull
  | VBool (b : bool)
  | VNum (z : Z)
  | VStr (s : jsstring)
  | VArr (items : list jsstring).

(** [ToBoolean]: what [v ? _ : _], [v || _] and [if (v)] test. *)
Definition truthy (v : jsval) : bool :=
  match v with
  | VUndefined | VNull => false
  | VBool b => b
  | VNum z => negb (z =? 0)%Z
  | VStr s => match s with [] => false | _ => true end
  | VArr _ => true
  end.

(** [a || b] *)
Definition or_else (a b : jsval) : jsval := if truthy a then a else b.

Inductive js_error := TypeError | RangeError.

Inductive result (A : Type) :=
  | Ok (a : A)
  | Throw (e : js_error).
Arguments Ok {A} a.
Arguments Throw {A} e.

Definition bind {A B} (r : result A) (k : A -> result B) : result B :=
  match r with
  | Ok a => k a
  | Throw e => Throw e
  end.

Notation "x <- r ;; k" := (bind r (fun x => k))
  (at level 100, r at next level, right associativity).

(** ** Theme options, as [withDefaults(themeOptions)] returns them *)

Record theme_options := {
  basePath : jsstring;
  postsPath : jsstring;
  recipesPath : jsstring;
  tagsPath : jsstring;
  postsPerPage : Z;
  do_not_count_type_for_pagination : option (list jsstring);
  do_not_include_type_in_lists : option (list jsstring);
  do_not_create_tag_page_for : option jsstring;
}.

(** ** [onCreatePage] *)

Module OnCreatePage.
Section Hook.
(** [urlResolve] of gatsby-core-utils. *)
Variable urlResolve : jsstring -> jsstring -> jsstring.
(** The fields of a page other than [path] and [context]. *)
Variable other_fields : Type.

Record page := {
  path : jsstring;
  context : gmap jsstring jsval;
  rest : other_fields;
}.

Inductive action :=
  | DeletePage (p : page)
  | CreatePage (p : page).

(** [{ basePath: basePath, ...page.context }]: the entries of
    [page.context] are written after [basePath], so an entry of the page
    under that key replaces the theme's. *)
Definition context_with_basePath (opts : theme_options) (p : page)
  : gmap jsstring jsval :=
  context p ∪ {[ js "basePath" := VStr (basePath opts) ]}.

Definition onCreatePage (opts : theme_options) (p : page) : list action :=
  if includes (path p) (js "404") then []
  else
    [ DeletePage p;
      CreatePage
        {| path := urlResolve (replacePath (basePath opts)) (replacePath (path p));
           context := context_with_basePath opts p;
           rest := rest p |} ].
End Hook.
Arguments path {_} _.
Arguments context {_} _.
Arguments rest {_} _.
Arguments DeletePage {_} _.
Arguments CreatePage {_} _.
Arguments context_with_basePath {_} _ _.
Arguments onCreatePage _ {_} _ _.
End OnCreatePage.

(** ** [onCreateNode] *)

Module OnCreateNode.

  (** [node.frontmatter]: a field that is absent reads [undefined]. *)
Record frontmatter := {
  fm_title : jsval;
  fm_slug : jsval;
  fm_tags : jsval;
  fm_date : jsval;
  fm_keywords : jsval;
  fm_type : jsval;
  fm_snippet : jsval;
  fm_abstract : jsval;
}.

Record mdx_node := {
  node_id : jsstring;
  node_parent : jsstring;
  node_internal_type : jsstring;
  node_frontmatter : frontmatter;
}.

Record fieldData := {
  title : jsval;
  tags : list jsstring;
  slug : jsstring;
  date : jsval;
  keywords : jsval;
  type : jsval;
  snippet : jsval;
  abstract : jsval;
}.

Record internal := {
  internal_type : jsstring;
  contentDigest : jsstring;
  content : jsstring;
  description : jsstring;
}.

(** The object handed to [createNode]: [...fieldData] and the required
    fields. *)
Record blog_post_node := {
  fields : fieldData;
  id : jsstring;
  parent : jsstring;
  children : list jsstring;
  node_internal : internal;
}.

Inductive action :=
  | CreateNode (n : blog_post_node)
  | CreateParentChildLink (parent : mdx_node) (child : jsstring).

(** [path.isAbsolute], POSIX flavour. *)
Definition isAbsolute (p : jsstring) : bool :=
  match p with
  | c :: _ => c =? slash
  | [] => false
  end.

(** One tag: [el.trim().normalize('NFD').replace(/[\u0300-\u036f]/g, '').replace(/ /g, '-')] *)
Definition clean_tag (normalize_NFD : jsstring -> jsstring) (el : jsstring)
  : jsstring :=
  spaces_to_dashes (remove_diacritics (normalize_NFD (trim el))).

(** [const tags = node.frontmatter.tags ? node.frontmatter.tags.split(',').map(...) : []];
    [split] is a method of strings only. *)
Definition derived_tags (normalize_NFD : jsstring -> jsstring) (fm : frontmatter)
  : result (list jsstring) :=
  if truthy (fm_tags fm) then
    match fm_tags fm with
    | VStr s => Ok (List.map (clean_tag normalize_NFD) (split comma s))
    | _ => Throw TypeError
    end
  else Ok [].

Section Hook.
(** The host's node store and id generator. *)
Variable file_node : Type.
Variable sourceInstanceName : file_node -> jsstring.
Variable getNode : jsstring -> option file_node.
Variable createNodeId : jsstring -> jsstring.
(** [createFilePath({ node, getNode, basePath })] of gatsby-source-filesystem. *)
Variable createFilePath : file_node -> jsstring -> jsstring.
(** [urlResolve] of gatsby-core-utils. *)
Variable urlResolve : jsstring -> jsstring -> jsstring.
Variable normalize_NFD : jsstring -> jsstring.
Variable JSON_stringify : fieldData -> jsstring.
(** [crypto.createHash(`md5`).update(s).digest(`hex`)] *)
Variable md5_hex : jsstring -> jsstring.

(** The [let slug] block: the path before [replacePath].
    [path.isAbsolute] throws on an argument that is not a string. *)
Definition derived_path (opts : theme_options) (node : mdx_node)
    (fileNode : file_node) : result jsstring :=
  let source := sourceInstanceName fileNode in
  if truthy (fm_slug (node_frontmatter node)) then
    match fm_slug (node_frontmatter node) with
    | VStr s =>
        if isAbsolute s then Ok s
        else Ok (urlResolve (basePath opts) s)
    | _ => Throw TypeError
    end
  else
    let filePath := createFilePath fileNode source in
    let changedPath :=
      if starts_with_date filePath
      then js "/" ++ pop (split dot filePath)
      else filePath in
    Ok (urlResolve (basePath opts) changedPath).

Definition make_fieldData (node : mdx_node) (tags : list jsstring)
    (slug : jsstring) : fieldData :=
  let fm := node_frontmatter node in
  {| title := fm_title fm;
     tags := tags;
     slug := slug;
     date := fm_date fm;
     keywords := or_else (fm_keywords fm) (VArr []);
     type := or_else (fm_type fm) (VStr []);
     snippet := or_else (fm_snippet fm) (VStr []);
     abstract := or_else (fm_abstract fm) (VStr []) |}.

Definition make_node (node : mdx_node) (fd : fieldData) : blog_post_node :=
  {| fields := fd;
     id := createNodeId (node_id node ++ js " >>> MdxBlogPost");
     parent := node_id node;
     children := [];
     node_internal :=
       {| internal_type := js "MdxBlogPost";
          contentDigest := md5_hex (JSON_stringify fd);
          content := JSON_stringify fd;
          description := js "Mdx implementation of the BlogPost interface" |} |}.

(** The hook: the calls it makes on [actions], or the exception it ends
    with. Reading [sourceInstanceName] of a parent that [getNode] does not
    find is a [TypeError]. *)
Definition onCreateNode (opts : theme_options) (node : mdx_node)
  : result (list action) :=
  if negb (bool_decide (node_internal_type node = js "Mdx")) then Ok []
  else
    match getNode (node_parent node) with
    | None => Throw TypeError
    | Some fileNode =>
        let source := sourceInstanceName fileNode in
        if bool_decide (node_internal_type node = js "Mdx")
           && (bool_decide (source = postsPath opts)
               || bool_decide (source = recipesPath opts))
        then
          slug <- derived_path opts node fileNode ;;
          tags <- derived_tags normalize_NFD (node_frontmatter node) ;;
          let slug := replacePath slug in
          let fieldData := make_fieldData node tags slug in
          let created := make_node node fieldData in
          Ok [ CreateNode created;
               CreateParentChildLink node (id created) ]
        else Ok []
    end.
End Hook.
End OnCreateNode.

(** ** [createPages] *)

Module CreatePages.

(** JavaScript numbers, as far as the pagination arithmetic needs them. The
    operands are integers below 2^53 and the quotients the code takes have a
    denominator that small, so [Math.ceil(a / b)] is the integer ceiling. *)
Inductive number :=
  | Num (z : Z)
  | NaN
  | PosInfinity
  | NegInfinity.

(** [Math.ceil(a / b)] for an integer [b]. *)
Definition ceil_of_quotient (a : number) (b : Z) : number :=
  match a with
  | NaN => NaN
  | Num z =>
      if (b =? 0)%Z then
        if (z =? 0)%Z then NaN
        else if (0 <? z)%Z then PosInfinity else NegInfinity
      else Num (- ((- z) / b))%Z
  | PosInfinity => if (b <? 0)%Z then NegInfinity else PosInfinity
  | NegInfinity => if (b <? 0)%Z then PosInfinity else NegInfinity
  end.

(** [x + 1], the new value of [x++]. *)
Definition increment (a : number) : number :=
  match a with
  | Num z => Num (z + 1)%Z
  | other => other
  end.

(** [Array.from({ length: x })]: [ToLength] sends [NaN] and what is below
    zero to 0; an array cannot have more than 2^32 - 1 elements. *)
Definition array_from_length (x : number) : result nat :=
  match x with
  | Num z => if (z <? 2 ^ 32)%Z then Ok (Z.to_nat z) else Throw RangeError
  | NaN | NegInfinity => Ok 0%nat
  | PosInfinity => Throw RangeError
  end.

(** A node of [result.data.allMdxBlogPost.edges]. *)
Record post := {
  id : jsstring;
  slug : jsstring;
  tags : list jsstring;
  type : jsstring;
}.

Record query_result := {
  errors : option (list jsstring);
  data : option (list post);
}.

Inductive template := PostTemplate | PostsTemplate.

Inductive page_context :=
  | PostContext (basePath pre_path id : jsstring)
      (previousId nextId : option jsstring)
  | ListContext (basePath pre_path : jsstring) (limit skip : Z)
      (num_of_pages : number) (current_page : Z)
      (this_is_a_tag_search : bool) (excluded_type : list jsstring)
      (all_posts : list post)
  | TagContext (basePath pre_path : jsstring) (limit skip : Z)
      (num_of_pages : number) (current_page : Z) (tag : jsstring)
      (global_tags : list jsstring) (this_is_a_tag_search : bool).

Record page := {
  path : jsstring;
  component : template;
  context : page_context;
}.

(** How a run of the hook ends: normally, in [reporter.panic] (the host
    reports the errors and ends the build), or in an exception. *)
Inductive outcome :=
  | Completed
  | Panicked (reported : list jsstring)
  | Threw (e : js_error).

(** The [createPage] calls of a run, in order, and how it ended. *)
Record run := {
  created : list page;
  ending : outcome;
}.

(** [xs.includes(x)] on an array of strings. *)
Fixpoint array_includes (xs : list jsstring) (x : jsstring) : bool :=
  match xs with
  | [] => false
  | y :: xs' => bool_decide (y = x) || array_includes xs' x
  end.

(** [posts.filter(({ node: { type } }) => !excluded.includes(type))] when the
    option is set, [posts] otherwise (an array, even an empty one, is truthy). *)
Definition filter_by_type (excluded : option (list jsstring)) (posts : list post)
  : list post :=
  match excluded with
  | Some types => List.filter (fun p => negb (array_includes types (type p))) posts
  | None => posts
  end.

(** [[...new Set(xs)]]: the first occurrence of each element, in order. *)
Fixpoint unique_after (seen xs : list jsstring) : list jsstring :=
  match xs with
  | [] => []
  | x :: xs' =>
      if array_includes seen x then unique_after seen xs'
      else x :: unique_after (x :: seen) xs'
  end.

Definition set_to_array (xs : list jsstring) : list jsstring := unique_after [] xs.

(** *** The object [counting_by_tags]

    An object literal [{}] has [Object.prototype] as its prototype: reading a
    key that is not an own property finds the inherited one when the key
    names a property of [Object.prototype]. *)
Definition object_prototype_keys : list jsstring :=
  [ js "constructor"; js "__defineGetter__"; js "__defineSetter__";
    js "hasOwnProperty"; js "__lookupGetter__"; js "__lookupSetter__";
    js "isPrototypeOf"; js "propertyIsEnumerable"; js "toString";
    js "valueOf"; js "__proto__"; js "toLocaleString" ].

Inductive property :=
  | Own (v : number)
  | Inherited
  | Missing.

(** [o[key]] *)
Definition get (o : gmap jsstring number) (key : jsstring) : property :=
  match o !! key with
  | Some v => Own v
  | None => if array_includes object_prototype_keys key then Inherited else Missing
  end.

(** [o[key] = v]: the inherited properties are writable data properties, so
    the assignment makes an own property, except under [__proto__], whose
    setter ignores a value that is not an object. *)
Definition set (o : gmap jsstring number) (key : jsstring) (v : number)
  : gmap jsstring number :=
  if bool_decide (key = js "__proto__") then o else <[key := v]> o.

(** [!x] for a property read: [undefined], 0 and [NaN] are falsy, a function
    or an object is truthy. *)
Definition falsy (x : property) : bool :=
  match x with
  | Own (Num z) => (z =? 0)%Z
  | Own NaN => true
  | Own _ => false
  | Inherited => false
  | Missing => true
  end.

(** [ToNumber] of a property read: a function, an object and [undefined]
    all convert to [NaN]. *)
Definition to_number (x : property) : number :=
  match x with
  | Own v => v
  | Inherited | Missing => NaN
  end.

(** [if (!counting_by_tags[tag]) counting_by_tags[tag] = 0; counting_by_tags[tag]++] *)
Definition count_tag (counting_by_tags : gmap jsstring number) (tag : jsstring)
  : gmap jsstring number :=
  let o :=
    if falsy (get counting_by_tags tag) then set counting_by_tags tag (Num 0)
    else counting_by_tags in
  set o tag (increment (to_number (get o tag))).

(** The body of [filtered_posts_by_tag.forEach], on the pair of
    [global_tags] and [counting_by_tags]. *)
Definition collect_tags (st : list jsstring * gmap jsstring number) (p : post)
  : list jsstring * gmap jsstring number :=
  (st.1 ++ tags p, fold_left count_tag (tags p) st.2).

(** *** The three groups of pages *)

(** [posts.forEach(({ node: post }, index) => ...)] *)
Definition post_page (opts : theme_options) (posts : list post)
    (index : nat) (p : post) : page :=
  let previous :=
    if (index =? length posts - 1)%nat then None else posts !! (index + 1)%nat in
  let next :=
    if (index =? 0)%nat then None else posts !! (index - 1)%nat in
  {| path := slug p;
     component := PostTemplate;
     context :=
       PostContext (basePath opts) (basePath opts) (id p)
         (id <$> previous) (id <$> next) |}.

Definition post_pages (opts : theme_options) (posts : list post) : list page :=
  imap (post_page opts posts) posts.

Definition listing_page (opts : theme_options) (posts : list post)
    (numPages : number) (index : nat) : page :=
  {| path :=
       if (index =? 0)%nat then basePath opts
       else basePath opts ++ number_to_string (index + 1);
     component := PostsTemplate;
     context :=
       ListContext (basePath opts) (basePath opts)
         (postsPerPage opts)
         (Z.of_nat index * postsPerPage opts)%Z
         numPages
         (Z.of_nat index + 1)%Z
         false
         (default [] (do_not_count_type_for_pagination opts))
         posts |}.

Definition listing_pages (opts : theme_options) (posts : list post)
  : result (list page) :=
  let filtered_posts_by_type :=
    filter_by_type (do_not_count_type_for_pagination opts) posts in
  let numPages :=
    ceil_of_quotient (Num (Z.of_nat (length filtered_posts_by_type)))
      (postsPerPage opts) in
  n <- array_from_length numPages ;;
  Ok (List.map (listing_page opts posts numPages) (seq 0 n)).

Definition tag_page (opts : theme_options) (global_tags : list jsstring)
    (tag : jsstring) (numPages_perTag : number) (index : nat) : page :=
  let pre_path := basePath opts ++ tagsPath opts ++ js "/" ++ tag in
  {| path :=
       if (index =? 0)%nat then pre_path ++ js "/"
       else pre_path ++ js "/" ++ number_to_string (index + 1);
     component := PostsTemplate;
     context :=
       TagContext (basePath opts) pre_path
         (postsPerPage opts)
         (Z.of_nat index * postsPerPage opts)%Z
         numPages_perTag
         (Z.of_nat index + 1)%Z
         tag
         global_tags
         true |}.

(** The body of [global_tags.forEach(tag => ...)]. *)
Definition pages_of_tag (opts : theme_options)
    (counting_by_tags : gmap jsstring number) (global_tags : list jsstring)
    (tag : jsstring) : result (list page) :=
  let numPages_perTag :=
    ceil_of_quotient (to_number (get counting_by_tags tag)) (postsPerPage opts) in
  n <- array_from_length numPages_perTag ;;
  Ok (List.map (tag_page opts global_tags tag numPages_perTag) (seq 0 n)).

(** [global_tags.forEach] as a run: the pages made so far and, when a tag's
    pages throw, the exception that ends the loop. *)
Fixpoint for_each_tag (opts : theme_options)
    (counting_by_tags : gmap jsstring number) (global_tags : list jsstring)
    (todo : list jsstring) : run :=
  match todo with
  | [] => {| created := []; ending := Completed |}
  | tag :: todo' =>
      match pages_of_tag opts counting_by_tags global_tags tag with
      | Throw e => {| created := []; ending := Threw e |}
      | Ok pages =>
          let r := for_each_tag opts counting_by_tags global_tags todo' in
          {| created := pages ++ created r; ending := ending r |}
      end
  end.

Definition tag_pages (opts : theme_options) (posts : list post) : run :=
  let filtered_posts_by_tag :=
    filter_by_type (do_not_include_type_in_lists opts) posts in
  let '(global_tags, counting_by_tags) :=
    fold_left collect_tags filtered_posts_by_tag ([], ∅) in
  (* the filtered array is computed and dropped *)
  let _ :=
    List.filter
      (fun tag => negb (bool_decide (Some tag = do_not_create_tag_page_for opts)))
      global_tags in
  let global_tags := set_to_array global_tags in
  for_each_tag opts counting_by_tags global_tags global_tags.

(** The hook, given what [graphql] returned. *)
Definition createPages (opts : theme_options) (result : query_result) : run :=
  match errors result with
  | Some errs => {| created := []; ending := Panicked errs |}
  | None =>
      match data result with
      | None => {| created := []; ending := Threw TypeError |}
      | Some posts =>
          match listing_pages opts posts with
          | Throw e => {| created := post_pages opts posts; ending := Threw e |}
          | Ok listing =>
              let r := tag_pages opts posts in
              {| created := post_pages opts posts ++ listing ++ created r;
                 ending := ending r |}
          end
      end
  end.

End CreatePages.

(** ** Observations on the hooks' results *)

(** The nodes a run of [onCreateNode] handed to [createNode]. *)
Definition created_nodes (r : result (list OnCreateNode.action))
  : list OnCreateNode.blog_post_node :=
  match r with
  | Ok acts =>
      flat_map
        (fun a =>
           match a with
           | OnCreateNode.CreateNode n => [n]
           | OnCreateNode.CreateParentChildLink _ _ => []
           end)
        acts
  | Throw _ => []
  end.

(** What a run computed for each node it created: the slug, the tags, the
    whole [fieldData] and the digest of its content. *)
Definition computed_values (r : result (list OnCreateNode.action))
  : result (list (jsstring * list jsstring * OnCreateNode.fieldData * jsstring)) :=
  match r with
  | Ok acts =>
      Ok (List.map
            (fun n =>
               (OnCreateNode.slug (OnCreateNode.fields n),
                OnCreateNode.tags (OnCreateNode.fields n),
                OnCreateNode.fields n,
                OnCreateNode.contentDigest (OnCreateNode.node_internal n)))
            (created_nodes (Ok acts)))
  | Throw e => Throw e
  end.

(** The file node belongs to the posts or to the recipes source. *)
Definition from_content_source {file_node : Type}
    (sourceInstanceName : file_node -> jsstring) (opts : theme_options)
    (f : file_node) : Prop :=
  sourceInstanceName f = postsPath opts \/ sourceInstanceName f = recipesPath opts.

(** A front-matter field [split] and [path.isAbsolute] accept: a string, or
    a value the guard in front of them skips. *)
Definition string_or_falsy (v : jsval) : bool :=
  match v with
  | VStr _ => true
  | other => negb (truthy other)
  end.

(** A tag with no space and no combining diacritical mark in it. *)
Definition clean (tag : jsstring) : Prop :=
  Forall (fun c => c <> space /\ is_combining_diacritic c = false) tag.

(** The main listing pages: the [PostsTemplate] pages that are no tag search. *)
Definition is_listing_page (p : CreatePages.page) : bool :=
  match CreatePages.context p with
  | CreatePages.ListContext _ _ _ _ _ _ _ _ _ => true
  | _ => false
  end.

(** The per-post pages. *)
Definition is_post_page (p : CreatePages.page) : bool :=
  match CreatePages.context p with
  | CreatePages.PostContext _ _ _ _ _ => true
  | _ => false
  end.

(** The pages of the tag search for [tag]. *)
Definition is_tag_page_of (tag : jsstring) (p : CreatePages.page) : bool :=
  match CreatePages.context p with
  | CreatePages.TagContext _ _ _ _ _ _ t _ _ => bool_decide (t = tag)
  | _ => false
  end.

(** The posts the tag pages are made from. *)
Definition posts_in_tag_lists (opts : theme_options) (posts : list CreatePages.post)
  : list CreatePages.post :=
  CreatePages.filter_by_type (do_not_include_type_in_lists opts) posts.

(** How often [tag] stands in the tag lists of [posts]. *)
Definition occurrences (tag : jsstring) (posts : list CreatePages.post) : nat :=
  length (List.filter (fun t => bool_decide (t = tag))
            (flat_map CreatePages.tags posts)).

(** How many of [posts] carry [tag]. *)
Definition posts_carrying (tag : jsstring) (posts : list CreatePages.post) : nat :=
  length (List.filter (fun p => CreatePages.array_includes (CreatePages.tags p) tag)
            posts).

(** A post counts for the pagination when its type is not one of
    [do_not_count_type_for_pagination]; every post counts when the option is
    unset. *)
Definition counts_for_pagination (opts : theme_options) (p : CreatePages.post)
  : Prop :=
  match do_not_count_type_for_pagination opts with
  | Some types => CreatePages.type p ∉ types
  | None => True
  end.

#[global] Instance counts_for_pagination_dec (opts : theme_options)
    (p : CreatePages.post) : Decision (counts_for_pagination opts p).
Proof.
  unfold counts_for_pagination.
  destruct (do_not_count_type_for_pagination opts); apply _.
Defined.

(** How many of [posts] count for the pagination. *)
Fixpoint number_counted (opts : theme_options) (posts : list CreatePages.post)
  : nat :=
  match posts with
  | [] => 0
  | p :: posts' =>
      (if decide (counts_for_pagination opts p) then 1 else 0)
      + number_counted opts posts'
  end%nat.

(** The options with [do_not_create_tag_page_for] set to [v]. *)
Definition with_do_not_create_tag_page_for (v : option jsstring)
    (opts : theme_options) : theme_options :=
  {| basePath := basePath opts;
     postsPath := postsPath opts;
     recipesPath := recipesPath opts;
     tagsPath := tagsPath opts;
     postsPerPage := postsPerPage opts;
     do_not_count_type_for_pagination := do_not_count_type_for_pagination opts;
     do_not_include_type_in_lists := do_not_include_type_in_lists opts;
     do_not_create_tag_page_for := v |}.

(** ** A host to run the hooks on

    Stand-ins for the functions the host and other packages supply, used
    where a statement is evaluated on a concrete input. *)
Module Sample.

(** Joins two segments with one slash between them. *)
Definition urlResolve (a b : jsstring) : jsstring :=
  remove_final_slash a ++ (if OnCreateNode.isAbsolute b then b else js "/" ++ b).

(** A file node is its [sourceInstanceName] and its path under the source. *)
Definition file_node : Type := jsstring * jsstring.
Definition sourceInstanceName (f : file_node) : jsstring := f.1.
Definition createFilePath (f : file_node) (source : jsstring) : jsstring := f.2.

(** Every parent id names a file [/hello/] of the source [posts]. *)
Definition getNode (parent_id : jsstring) : option file_node :=
  Some (js "posts", js "/hello/").

Definition createNodeId (s : jsstring) : jsstring := s.
Definition normalize_NFD (s : jsstring) : jsstring := s.
Definition JSON_stringify (fd : OnCreateNode.fieldData) : jsstring :=
  OnCreateNode.slug fd ++ concat (OnCreateNode.tags fd).
Definition md5_hex (s : jsstring) : jsstring := s.

Definition onCreateNode :=
  OnCreateNode.onCreateNode file_node sourceInstanceName getNode createNodeId
    createFilePath urlResolve normalize_NFD JSON_stringify md5_hex.

Definition options : theme_options :=
  {| basePath := js "/";
     postsPath := js "posts";
     recipesPath := js "recipes";
     tagsPath := js "tags";
     postsPerPage := 1%Z;
     do_not_count_type_for_pagination := None;
     do_not_include_type_in_lists := None;
     do_not_create_tag_page_for := None |}.

(** The same options for a blog served under [/blog/], three posts a page. *)
Definition blog_options : theme_options :=
  {| basePath := js "/blog/";
     postsPath := js "posts";
     recipesPath := js "recipes";
     tagsPath := js "tags";
     postsPerPage := 3%Z;
     do_not_count_type_for_pagination := Some [js "recipe"];
     do_not_include_type_in_lists := Some [js "draft"];
     do_not_create_tag_page_for := Some (js "misc") |}.

(** An Mdx node with the given id whose front-matter has a slug and tags. *)
Definition mdx (node_id : string) (fm_slug fm_tags : jsval) : OnCreateNode.mdx_node :=
  {| OnCreateNode.node_id := js node_id;
     OnCreateNode.node_parent := js "file";
     OnCreateNode.node_internal_type := js "Mdx";
     OnCreateNode.node_frontmatter :=
       {| OnCreateNode.fm_title := VStr (js "Hello");
          OnCreateNode.fm_slug := fm_slug;
          OnCreateNode.fm_tags := fm_tags;
          OnCreateNode.fm_date := VUndefined;
          OnCreateNode.fm_keywords := VUndefined;
          OnCreateNode.fm_type := VUndefined;
          OnCreateNode.fm_snippet := VUndefined;
          OnCreateNode.fm_abstract := VUndefined |} |}.

Definition blog_post (id type : string) (tags : list jsstring) : CreatePages.post :=
  {| CreatePages.id := js id;
     CreatePages.slug := js "/" ++ js id;
     CreatePages.tags := tags;
     CreatePages.type := js type |}.

Definition answer (posts : list CreatePages.post) : CreatePages.query_result :=
  {| CreatePages.errors := None; CreatePages.data := Some posts |}.

End Sample.

(** ** [onPreBootstrap] *)

Module OnPreBootstrap.
Section Hook.
(** The file system as the hook sees and changes it. *)
Variable disk : Type.
(** [fs.existsSync(path)] *)
Variable existsSync : disk -> jsstring -> bool.
(** [mkdirp.sync(dir)]: the file system afterwards and, when the call
    throws, the code of the error. *)
Variable mkdirp_sync : disk -> jsstring -> disk * option jsstring.
(** [path.join] *)
Variable join : jsstring -> jsstring -> jsstring.

Inductive call :=
  | Debug (message : jsstring)
  | Mkdirp (dir : jsstring).

(** The calls of a run, in order, the file system it leaves and the error
    it ended with, if any. *)
Record run := {
  calls : list call;
  after : disk;
  thrown : option jsstring;
}.

(** [dirs.forEach(dir => { debug(...); if (!fs.existsSync(dir)) mkdirp.sync(dir) })] *)
Fixpoint for_each_dir (d : disk) (dirs : list jsstring) : run :=
  match dirs with
  | [] => {| calls := []; after := d; thrown := None |}
  | dir :: dirs' =>
      let message := Debug (js "Initializing " ++ dir ++ js " directory") in
      if negb (existsSync d dir) then
        match mkdirp_sync d dir with
        | (d', Some code) =>
            {| calls := [message; Mkdirp dir]; after := d'; thrown := Some code |}
        | (d', None) =>
            let r := for_each_dir d' dirs' in
            {| calls := message :: Mkdirp dir :: calls r;
               after := after r;
               thrown := thrown r |}
        end
      else
        let r := for_each_dir d dirs' in
        {| calls := message :: calls r; after := after r; thrown := thrown r |}
  end.

(** The hook, given [program.directory] and the [folders_to_check] of
    [withDefaults(themeOptions)]. *)
Definition onPreBootstrap (directory : jsstring)
    (folders_to_check : list jsstring) (d : disk) : run :=
  let dirs := List.map (fun el => join directory el) folders_to_check in
  for_each_dir d dirs.
End Hook.
Arguments calls {_} _.
Arguments after {_} _.
Arguments thrown {_} _.

(** The directories a run asked [mkdirp] to make, in order. *)
Definition made (cs : list call) : list jsstring :=
  flat_map (fun c => match c with Mkdirp dir => [dir] | Debug _ => [] end) cs.

End OnPreBootstrap.

(** A file system to run [onPreBootstrap] on: the list of the paths that
    exist; [mkdirp] adds the path and never fails. *)
Module SampleDisk.

Definition disk : Type := list jsstring.
Definition existsSync (d : disk) (p : jsstring) : bool :=
  CreatePages.array_includes d p.
Definition mkdirp_sync (d : disk) (dir : jsstring) : disk * option jsstring :=
  (dir :: d, None).
Definition join (a b : jsstring) : jsstring := a ++ js "/" ++ b.

Definition onPreBootstrap :=
  OnPreBootstrap.onPreBootstrap disk existsSync mkdirp_sync join.

(** Every parent id names the dated file [/2020.01.31.hello/] of [posts]. *)
Definition dated_getNode (parent_id : jsstring) : option Sample.file_node :=
  Some (js "posts", js "/2020.01.31.hello/").

End SampleDisk.

(** * Properties *)

(** ** Strings *)

Lemma remove_final_slash_nil (s : jsstring) :
  remove_final_slash s = [] -> s = [] \/ s = [slash].
Proof.
  destruct s as [|c [|c' s']]; simpl; [by left| |discriminate].
  destruct (N.eqb_spec c slash) as [->|_]; [by right|discriminate].
Qed.

Lemma ends_with_slash_cons (c : N) (s : jsstring) :
  s <> [] -> ends_with_slash (c :: s) = ends_with_slash s.
Proof. by destruct s. Qed.

(** After the final slash is dropped the string ends in a slash only when it
    ended in two. *)
Lemma remove_final_slash_ends (s : jsstring) :
  ends_with_slash (remove_final_slash s) = true -> js "//" `suffix_of` s.
Proof.
  induction s as [|c s IH]; [discriminate|].
  destruct s as [|c' s'].
  - simpl. destruct (N.eqb_spec c slash) as [->|Hc]; [discriminate|].
    simpl. intros H%N.eqb_eq. contradiction.
  - change (remove_final_slash (c :: c' :: s'))
      with (c :: remove_final_slash (c' :: s')).
    destruct (remove_final_slash (c' :: s')) as [|d r] eqn:E.
    + apply remove_final_slash_nil in E as [E|E]; [discriminate|].
      injection E as -> ->. simpl. intros ->%N.eqb_eq. by exists [].
    + rewrite ends_with_slash_cons by discriminate.
      intros H. apply suffix_cons_r. by apply IH.
Qed.

Lemma replacePath_normalized (p : jsstring) :
  ~ js "//" `suffix_of` p ->
  replacePath p = js "/" \/ ends_with_slash (replacePath p) = false.
Proof.
  intros Hp. unfold replacePath. case_decide as E; [by left|].
  right. destruct (ends_with_slash (remove_final_slash p)) eqn:H; [|done].
  by apply remove_final_slash_ends in H.
Qed.

Example replacePath_root : replacePath (js "/") = js "/".
Proof. reflexivity. Qed.

Example replacePath_blog : replacePath (js "/blog/") = js "/blog".
Proof. reflexivity. Qed.

Example replacePath_two_slashes : replacePath (js "/blog//") = js "/blog/".
Proof. reflexivity. Qed.

Example split_commas :
  split comma (js "a, b,,c") = [js "a"; js " b"; js ""; js "c"].
Proof. reflexivity. Qed.

Example trim_spaces : trim (js "  web dev ") = js "web dev".
Proof. reflexivity. Qed.

Example dated_file_path :
  starts_with_date (js "/2020.01.31.hello/") = true
  /\ pop (split dot (js "/2020.01.31.hello/")) = js "hello/".
Proof. by split. Qed.

Example page_number : number_to_string 12 = js "12".
Proof. reflexivity. Qed.

(** ** [onCreatePage] *)

Section OnCreatePageFacts.
Import OnCreatePage.
Variable urlResolve : jsstring -> jsstring -> jsstring.
Variable other_fields : Type.
Implicit Types (p : page other_fields) (opts : theme_options).

Lemma context_with_basePath_lookup opts p (k : jsstring) :
  context_with_basePath opts p !! k =
    match context p !! k with
    | Some v => Some v
    | None =>
        if decide (k = js "basePath") then Some (VStr (basePath opts)) else None
    end.
Proof.
  unfold context_with_basePath. rewrite lookup_union.
  case_decide as Hk.
  - subst k. rewrite lookup_singleton_eq.
    by destruct (context p !! js "basePath").
  - rewrite lookup_singleton_ne by done.
    by destruct (context p !! k).
Qed.

(** C10, as amended. A page whose path contains [404] is left alone: no
    call is made. Every other page is deleted and created again, with the
    path [urlResolve(replacePath(basePath), replacePath(page.path))], the
    other fields as they were and every entry of its context kept; an
    entry [basePath] with the theme's value is added when the context had
    none under that key. *)
Theorem onCreatePage_recreates opts p :
  (includes (path p) (js "404") = true
   /\ onCreatePage urlResolve opts p = [])
  \/ (includes (path p) (js "404") = false
      /\ exists p',
          onCreatePage urlResolve opts p = [DeletePage p; CreatePage p']
          /\ path p' = urlResolve (replacePath (basePath opts)) (replacePath (path p))
          /\ rest p' = rest p
          /\ (forall k v, context p !! k = Some v -> context p' !! k = Some v)
          /\ (forall k, k <> js "basePath" -> context p' !! k = context p !! k)
          /\ (context p !! js "basePath" = None ->
              context p' !! js "basePath" = Some (VStr (basePath opts)))).
Proof.
  unfold onCreatePage. destruct (includes (path p) (js "404")); [by left|].
  right. split; [done|]. eexists. split; [reflexivity|]. simpl.
  repeat split.
  - intros k v H. by rewrite context_with_basePath_lookup, H.
  - intros k Hk. rewrite context_with_basePath_lookup.
    destruct (context p !! k); [done|]. by case_decide.
  - intros H. rewrite context_with_basePath_lookup, H. by case_decide.
Qed.
End OnCreatePageFacts.

Example onCreatePage_404_untouched :
  OnCreatePage.onCreatePage Sample.urlResolve Sample.blog_options
    {| OnCreatePage.path := js "/404.html";
       OnCreatePage.context := ∅;
       OnCreatePage.rest := tt |}
  = [].
Proof. reflexivity. Qed.

Lemma onCreatePage_recreates_witness :
  let p := {| OnCreatePage.path := js "/about/";
              OnCreatePage.context := {[ js "lang" := VStr (js "en") ]};
              OnCreatePage.rest := tt |} in
  exists p',
    OnCreatePage.onCreatePage Sample.urlResolve Sample.blog_options p
      = [OnCreatePage.DeletePage p; OnCreatePage.CreatePage p']
    /\ OnCreatePage.path p' = js "/blog/about"
    /\ OnCreatePage.rest p' = tt
    /\ OnCreatePage.context p' !! js "lang" = Some (VStr (js "en"))
    /\ OnCreatePage.context p' !! js "basePath" = Some (VStr (js "/blog/")).
Proof.
  intros p.
  destruct (onCreatePage_recreates Sample.urlResolve unit Sample.blog_options p)
    as [[H404 _]|[_ (p' & Hrun & Hpath & Hrest & Hkept & _ & Hadded)]];
    [discriminate H404|].
  exists p'. split; [exact Hrun|]. split; [exact Hpath|]. split; [exact Hrest|].
  split.
  - apply Hkept. apply lookup_singleton_eq.
  - apply Hadded. apply lookup_singleton_ne. discriminate.
Defined.

(** C10, as stated, fails on a page whose context has a [basePath] of its
    own: the page is created again with that entry, not with the theme's. *)
Lemma onCreatePage_keeps_own_basePath :
  let opts := Sample.blog_options in
  let p := {| OnCreatePage.path := js "/about/";
              OnCreatePage.context := {[ js "basePath" := VStr (js "/x") ]};
              OnCreatePage.rest := tt |} in
  exists p',
    OnCreatePage.onCreatePage Sample.urlResolve opts p
      = [OnCreatePage.DeletePage p; OnCreatePage.CreatePage p']
    /\ OnCreatePage.path p' = js "/blog/about"
    /\ OnCreatePage.context p' !! js "basePath" = Some (VStr (js "/x"))
    /\ OnCreatePage.context p' !! js "basePath" <> Some (VStr (basePath opts)).
Proof.
  eexists. split; [reflexivity|]. simpl.
  rewrite context_with_basePath_lookup. simpl.
  rewrite lookup_singleton_eq. repeat split. discriminate.
Qed.

(** ** [onCreateNode] *)

Lemma clean_tag_clean (normalize_NFD : jsstring -> jsstring) (el : jsstring) :
  clean (OnCreateNode.clean_tag normalize_NFD el).
Proof.
  unfold OnCreateNode.clean_tag, clean, spaces_to_dashes, remove_diacritics.
  apply Forall_forall. intros c Hc.
  apply list_elem_of_In, in_map_iff in Hc as (c0 & <- & Hc0).
  apply filter_In in Hc0 as [_ Hc0]. apply negb_true_iff in Hc0.
  destruct (N.eqb_spec c0 space) as [_|Hne]; [by split|by split].
Qed.

Section OnCreateNodeFacts.
Import OnCreateNode.
Variable file_node : Type.
Variable sourceInstanceName : file_node -> jsstring.
Variable getNode : jsstring -> option file_node.
Variable createNodeId : jsstring -> jsstring.
Variable createFilePath : file_node -> jsstring -> jsstring.
Variable urlResolve : jsstring -> jsstring -> jsstring.
Variable normalize_NFD : jsstring -> jsstring.
Variable JSON_stringify : fieldData -> jsstring.
Variable md5_hex : jsstring -> jsstring.

Local Abbreviation onCreateNode :=
  (onCreateNode file_node sourceInstanceName getNode createNodeId
     createFilePath urlResolve normalize_NFD JSON_stringify md5_hex).
Local Abbreviation derived_path :=
  (derived_path file_node sourceInstanceName createFilePath urlResolve).
Local Abbreviation make_node := (make_node createNodeId JSON_stringify md5_hex).
Local Abbreviation from_content_source := (from_content_source sourceInstanceName).

Implicit Types (opts : theme_options) (node : mdx_node) (f : file_node).

Lemma onCreateNode_creates opts node f (p : jsstring) (ts : list jsstring) :
  node_internal_type node = js "Mdx" ->
  getNode (node_parent node) = Some f ->
  from_content_source opts f ->
  derived_path opts node f = Ok p ->
  derived_tags normalize_NFD (node_frontmatter node) = Ok ts ->
  let n := make_node node (make_fieldData node ts (replacePath p)) in
  onCreateNode opts node = Ok [CreateNode n; CreateParentChildLink node (id n)].
Proof.
  intros Hty Hf Hsrc Hp Hts. unfold OnCreateNode.onCreateNode.
  rewrite bool_decide_eq_true_2 by done. simpl. rewrite Hf.
  assert (bool_decide (sourceInstanceName f = postsPath opts)
          || bool_decide (sourceInstanceName f = recipesPath opts) = true) as ->.
  { destruct Hsrc as [H|H]; rewrite (bool_decide_eq_true_2 _ H);
      [done|apply orb_true_r]. }
  rewrite Hp. simpl. rewrite Hts. reflexivity.
Qed.

Lemma created_nodes_inv opts node (n : blog_post_node) :
  n ∈ created_nodes (onCreateNode opts node) ->
  exists f p ts,
    node_internal_type node = js "Mdx"
    /\ getNode (node_parent node) = Some f
    /\ from_content_source opts f
    /\ derived_path opts node f = Ok p
    /\ derived_tags normalize_NFD (node_frontmatter node) = Ok ts
    /\ n = make_node node (make_fieldData node ts (replacePath p)).
Proof.
  unfold OnCreateNode.onCreateNode.
  case_bool_decide as Hty; simpl; [|by intros ?%elem_of_nil].
  destruct (getNode (node_parent node)) as [f|] eqn:Hf; [|by intros ?%elem_of_nil].
  destruct (bool_decide (sourceInstanceName f = postsPath opts)
            || bool_decide (sourceInstanceName f = recipesPath opts)) eqn:Hsrc;
    [|by intros ?%elem_of_nil].
  destruct (derived_path opts node f) as [p|e] eqn:Hp; [|by intros ?%elem_of_nil].
  simpl.
  destruct (derived_tags normalize_NFD (node_frontmatter node)) as [ts|e] eqn:Hts;
    [|by intros ?%elem_of_nil].
  simpl. intros ->%list_elem_of_singleton. exists f, p, ts.
  repeat split; try done.
  apply orb_true_iff in Hsrc as [H|H]; apply bool_decide_eq_true in H;
    [by left|by right].
Qed.

Lemma derived_path_total opts node f :
  string_or_falsy (fm_slug (node_frontmatter node)) = true ->
  exists p, derived_path opts node f = Ok p.
Proof.
  unfold OnCreateNode.derived_path.
  destruct (fm_slug (node_frontmatter node)) as [| |b|z|s|items]; simpl;
    try (intros ->%negb_true_iff); try discriminate; eauto.
  intros _. destruct s; simpl; eauto. destruct (_ =? _); eauto.
Qed.

Lemma derived_tags_total (fm : frontmatter) :
  string_or_falsy (fm_tags fm) = true ->
  exists ts, derived_tags normalize_NFD fm = Ok ts.
Proof.
  unfold derived_tags.
  destruct (fm_tags fm) as [| |b|z|s|items]; simpl;
    try (intros ->%negb_true_iff); try discriminate; eauto.
  intros _. destruct s; eauto.
Qed.

Lemma derived_tags_falsy (fm : frontmatter) :
  truthy (fm_tags fm) = false -> derived_tags normalize_NFD fm = Ok [].
Proof. unfold derived_tags. by intros ->. Qed.

Lemma derived_tags_string (fm : frontmatter) (s : jsstring) :
  fm_tags fm = VStr s -> s <> [] ->
  derived_tags normalize_NFD fm
    = Ok (List.map (clean_tag normalize_NFD) (split comma s)).
Proof. unfold derived_tags. intros -> Hs. by destruct s. Qed.

Lemma derived_tags_all_clean (fm : frontmatter) (ts : list jsstring) :
  derived_tags normalize_NFD fm = Ok ts -> Forall clean ts.
Proof.
  unfold derived_tags. destruct (truthy (fm_tags fm)).
  - destruct (fm_tags fm); try discriminate. intros [= <-].
    apply Forall_forall. intros t Ht.
    apply list_elem_of_In, in_map_iff in Ht as (el & <- & _).
    apply clean_tag_clean.
  - intros [= <-]. constructor.
Qed.

(** C1. An Mdx node of the posts or recipes source whose slug and tags are
    strings or absent gets an MdxBlogPost node, and in it every optional
    field the front-matter lacks (a lacking field reads [undefined], which
    is falsy) has its empty value: [[]] for tags and keywords, the empty
    string for type, snippet and abstract. *)
Theorem missing_fields_default opts node f :
  node_internal_type node = js "Mdx" ->
  getNode (node_parent node) = Some f ->
  from_content_source opts f ->
  string_or_falsy (fm_slug (node_frontmatter node)) = true ->
  string_or_falsy (fm_tags (node_frontmatter node)) = true ->
  exists n,
    onCreateNode opts node = Ok [CreateNode n; CreateParentChildLink node (id n)]
    /\ internal_type (node_internal n) = js "MdxBlogPost"
    /\ (truthy (fm_tags (node_frontmatter node)) = false -> tags (fields n) = [])
    /\ (truthy (fm_keywords (node_frontmatter node)) = false ->
        keywords (fields n) = VArr [])
    /\ (truthy (fm_type (node_frontmatter node)) = false ->
        type (fields n) = VStr (js ""))
    /\ (truthy (fm_snippet (node_frontmatter node)) = false ->
        snippet (fields n) = VStr (js ""))
    /\ (truthy (fm_abstract (node_frontmatter node)) = false ->
        abstract (fields n) = VStr (js "")).
Proof.
  intros Hty Hf Hsrc Hslug Htags.
  destruct (derived_path_total opts node f Hslug) as [p Hp].
  destruct (derived_tags_total _ Htags) as [ts Hts].
  eexists. split; [by apply (onCreateNode_creates opts node f p ts)|].
  simpl. unfold or_else. repeat split; try (by intros ->).
  intros H. rewrite (derived_tags_falsy _ H) in Hts. by injection Hts.
Qed.

(** C4, as amended. The slug stored on an MdxBlogPost node is
    [replacePath] of the path derived for it; when that path does not end
    in two slashes the slug is [/] or does not end in a slash. *)
Theorem stored_slug_normalized opts node (n : blog_post_node) :
  n ∈ created_nodes (onCreateNode opts node) ->
  exists f p,
    getNode (node_parent node) = Some f
    /\ derived_path opts node f = Ok p
    /\ slug (fields n) = replacePath p
    /\ (~ js "//" `suffix_of` p ->
        slug (fields n) = js "/" \/ ends_with_slash (slug (fields n)) = false).
Proof.
  intros (f & p & ts & _ & Hf & _ & Hp & _ & ->)%created_nodes_inv.
  exists f, p. repeat split; try done. simpl. apply replacePath_normalized.
Qed.

(** C5, as amended. When the front-matter tags are a string that is not
    empty, the node is created with the tags got by splitting that string
    on commas and mapping each piece to its trimmed form, normalized to
    NFD, without the combining marks U+0300 to U+036F and with a dash for
    every space; no tag then contains a space or such a mark. *)
Theorem tags_split_and_cleaned opts node f (s : jsstring) :
  node_internal_type node = js "Mdx" ->
  getNode (node_parent node) = Some f ->
  from_content_source opts f ->
  string_or_falsy (fm_slug (node_frontmatter node)) = true ->
  fm_tags (node_frontmatter node) = VStr s ->
  s <> [] ->
  exists n,
    onCreateNode opts node = Ok [CreateNode n; CreateParentChildLink node (id n)]
    /\ tags (fields n)
       = List.map
           (fun el => spaces_to_dashes (remove_diacritics (normalize_NFD (trim el))))
           (split comma s)
    /\ Forall clean (tags (fields n)).
Proof.
  intros Hty Hf Hsrc Hslug Htags Hs.
  destruct (derived_path_total opts node f Hslug) as [p Hp].
  pose proof (derived_tags_string _ s Htags Hs) as Hts.
  eexists. split; [by eapply (onCreateNode_creates opts node f p)|].
  simpl. split; [done|]. by eapply derived_tags_all_clean.
Qed.

(** C7. What [onCreateNode] computes depends on the node only through its
    front-matter, its type and its parent file node: two nodes that agree
    on these (their ids may differ) get the same slug, tags, [fieldData]
    and content digest, or end in the same exception. *)
Theorem onCreateNode_deterministic opts (n1 n2 : mdx_node) :
  node_frontmatter n1 = node_frontmatter n2 ->
  node_internal_type n1 = node_internal_type n2 ->
  getNode (node_parent n1) = getNode (node_parent n2) ->
  computed_values (onCreateNode opts n1) = computed_values (onCreateNode opts n2).
Proof.
  intros Hfm Hty Hf. unfold OnCreateNode.onCreateNode.
  rewrite Hty, Hf. destruct (negb _); [done|].
  destruct (getNode (node_parent n2)) as [f|]; [|done].
  destruct (_ && _); [|done].
  unfold OnCreateNode.derived_path, make_fieldData. rewrite Hfm.
  destruct (if truthy (fm_slug (node_frontmatter n2)) then _ else _); [|done].
  simpl. by destruct (derived_tags normalize_NFD (node_frontmatter n2)).
Qed.
End OnCreateNodeFacts.

Lemma missing_fields_default_witness :
  let node := Sample.mdx "a" VUndefined VUndefined in
  exists n,
    Sample.onCreateNode Sample.options node
      = Ok [OnCreateNode.CreateNode n;
            OnCreateNode.CreateParentChildLink node (OnCreateNode.id n)]
    /\ OnCreateNode.tags (OnCreateNode.fields n) = []
    /\ OnCreateNode.keywords (OnCreateNode.fields n) = VArr []
    /\ OnCreateNode.type (OnCreateNode.fields n) = VStr (js "")
    /\ OnCreateNode.snippet (OnCreateNode.fields n) = VStr (js "")
    /\ OnCreateNode.abstract (OnCreateNode.fields n) = VStr (js "").
Proof.
  intros node.
  destruct (missing_fields_default Sample.file_node Sample.sourceInstanceName
              Sample.getNode Sample.createNodeId Sample.createFilePath
              Sample.urlResolve Sample.normalize_NFD Sample.JSON_stringify
              Sample.md5_hex Sample.options node (js "posts", js "/hello/"))
    as (n & Hrun & _ & Htags & Hkeywords & Htype & Hsnippet & Habstract);
    [reflexivity|reflexivity|left; reflexivity|reflexivity|reflexivity|].
  exists n. split; [exact Hrun|].
  split; [apply Htags; reflexivity|].
  split; [apply Hkeywords; reflexivity|].
  split; [apply Htype; reflexivity|].
  split; [apply Hsnippet; reflexivity|apply Habstract; reflexivity].
Defined.

(** C4, as stated, fails twice: two different posts that give the same
    front-matter slug get the same stored slug, and a slug given with two
    final slashes is stored with one. *)
Lemma two_posts_one_slug :
  let a := Sample.mdx "a" (VStr (js "/hello//")) VUndefined in
  let b := Sample.mdx "b" (VStr (js "/hello//")) VUndefined in
  OnCreateNode.node_id a <> OnCreateNode.node_id b
  /\ (fun n => OnCreateNode.slug (OnCreateNode.fields n))
       <$> created_nodes (Sample.onCreateNode Sample.options a) = [js "/hello/"]
  /\ (fun n => OnCreateNode.slug (OnCreateNode.fields n))
       <$> created_nodes (Sample.onCreateNode Sample.options b) = [js "/hello/"]
  /\ ends_with_slash (js "/hello/") = true
  /\ js "/hello/" <> js "/".
Proof. repeat split; discriminate. Qed.

Lemma stored_slug_normalized_witness :
  let node := Sample.mdx "a" (VStr (js "/hello/")) VUndefined in
  exists n f p,
    created_nodes (Sample.onCreateNode Sample.options node) = [n]
    /\ Sample.getNode (OnCreateNode.node_parent node) = Some f
    /\ OnCreateNode.derived_path Sample.file_node Sample.sourceInstanceName
         Sample.createFilePath Sample.urlResolve Sample.options node f = Ok p
    /\ OnCreateNode.slug (OnCreateNode.fields n) = replacePath p
    /\ (~ js "//" `suffix_of` p ->
        OnCreateNode.slug (OnCreateNode.fields n) = js "/"
        \/ ends_with_slash (OnCreateNode.slug (OnCreateNode.fields n)) = false).
Proof.
  intros node. eexists. 
  assert (created_nodes (Sample.onCreateNode Sample.options node) = [_]) as Hrun
    by reflexivity.
  destruct (stored_slug_normalized Sample.file_node Sample.sourceInstanceName
              Sample.getNode Sample.createNodeId Sample.createFilePath
              Sample.urlResolve Sample.normalize_NFD Sample.JSON_stringify
              Sample.md5_hex Sample.options node _
              (eq_ind_r (fun l => _ ∈ l) (list_elem_of_here _ _) Hrun))
    as (f & p & H).
  exists f, p. split; [exact Hrun|exact H].
Defined.

(** C5, as stated, fails on an empty tags string: it is falsy, so the tags
    are the empty list, where splitting it would give one empty tag. *)
Lemma empty_tags_string_gives_no_tag :
  let node := Sample.mdx "a" VUndefined (VStr (js "")) in
  (fun n => OnCreateNode.tags (OnCreateNode.fields n))
    <$> created_nodes (Sample.onCreateNode Sample.options node) = [ [] ]
  /\ List.map (OnCreateNode.clean_tag Sample.normalize_NFD) (split comma (js ""))
     = [ js "" ].
Proof. by split. Qed.

Lemma tags_split_and_cleaned_witness :
  let node := Sample.mdx "a" VUndefined (VStr (js " web dev,gatsby ")) in
  exists n,
    Sample.onCreateNode Sample.options node
      = Ok [OnCreateNode.CreateNode n;
            OnCreateNode.CreateParentChildLink node (OnCreateNode.id n)]
    /\ OnCreateNode.tags (OnCreateNode.fields n) = [js "web-dev"; js "gatsby"]
    /\ Forall clean (OnCreateNode.tags (OnCreateNode.fields n)).
Proof.
  intros node.
  destruct (tags_split_and_cleaned Sample.file_node Sample.sourceInstanceName
              Sample.getNode Sample.createNodeId Sample.createFilePath
              Sample.urlResolve Sample.normalize_NFD Sample.JSON_stringify
              Sample.md5_hex Sample.options node (js "posts", js "/hello/")
              (js " web dev,gatsby "))
    as (n & Hrun & Htags & Hclean);
    [reflexivity|reflexivity|left; reflexivity|reflexivity|reflexivity
    |discriminate|].
  exists n. split; [exact Hrun|]. split; [exact Htags|exact Hclean].
Defined.

Lemma onCreateNode_deterministic_witness :
  let a := Sample.mdx "a" VUndefined (VStr (js "gatsby")) in
  let b := Sample.mdx "b" VUndefined (VStr (js "gatsby")) in
  OnCreateNode.node_id a <> OnCreateNode.node_id b
  /\ computed_values (Sample.onCreateNode Sample.options a)
     = computed_values (Sample.onCreateNode Sample.options b).
Proof.
  intros a b. split; [discriminate|].
  apply (onCreateNode_deterministic Sample.file_node Sample.sourceInstanceName
           Sample.getNode Sample.createNodeId Sample.createFilePath
           Sample.urlResolve Sample.normalize_NFD Sample.JSON_stringify
           Sample.md5_hex Sample.options a b); reflexivity.
Defined.

(** ** [createPages] *)

Section ListFacts.
Context {A : Type}.
Implicit Types (f : A -> bool) (l : list A).

Lemma filter_all f l : (forall x, x ∈ l -> f x = true) -> List.filter f l = l.
Proof.
  induction l as [|x l IH]; intros H; [done|]. simpl.
  rewrite (H x) by left. f_equal. apply IH. intros y Hy. apply H. by right.
Qed.

Lemma filter_none f l : (forall x, x ∈ l -> f x = false) -> List.filter f l = [].
Proof.
  induction l as [|x l IH]; intros H; [done|]. simpl.
  rewrite (H x) by left. apply IH. intros y Hy. apply H. by right.
Qed.
End ListFacts.

(** [Math.ceil(m / p)] for a count [m] and a positive [p] is the integer [n]
    with [p * (n - 1) < m <= p * n]. *)
Lemma ceil_of_quotient_positive (m p : Z) :
  (0 <= m)%Z -> (0 < p)%Z ->
  exists n : nat,
    CreatePages.ceil_of_quotient (CreatePages.Num m) p = CreatePages.Num (Z.of_nat n)
    /\ (p * (Z.of_nat n - 1) < m <= p * Z.of_nat n)%Z
    /\ (Z.of_nat n <= m)%Z.
Proof.
  intros Hm Hp. unfold CreatePages.ceil_of_quotient.
  destruct (Z.eqb_spec p 0) as [?|_]; [lia|].
  pose proof (Z.div_mod (- m) p ltac:(lia)) as Hdiv.
  pose proof (Z.mod_pos_bound (- m) p Hp) as Hmod.
  set (q := (- m / p)%Z) in *.
  assert (q <= 0)%Z as Hq by nia.
  exists (Z.to_nat (- q)). rewrite Z2Nat.id by lia.
  split; [done|]. split; nia.
Qed.

Section CreatePagesFacts.
Import CreatePages.
Implicit Types (opts : theme_options) (r : query_result) (posts : list post).

(** C2. When the query result has errors, [reporter.panic] is called with
    them, which ends the run, and no page has been created. *)
Theorem query_errors_abort opts r (errs : list jsstring) :
  errors r = Some errs ->
  createPages opts r = {| created := []; ending := Panicked errs |}.
Proof. unfold createPages. by intros ->. Qed.

Lemma created_starts_with_post_pages opts r posts :
  errors r = None -> data r = Some posts ->
  exists later, created (createPages opts r) = post_pages opts posts ++ later.
Proof.
  unfold createPages. intros -> ->.
  destruct (listing_pages opts posts); simpl; [eauto|].
  exists []. by rewrite app_nil_r.
Qed.

(** C9. The page of the post at index [i] has [previousId] the id of the
    post at index [i + 1], none for the last post, and [nextId] the id of
    the post at index [i - 1], none for the first. *)
Theorem post_page_siblings opts r posts (i : nat) (p : post) :
  errors r = None -> data r = Some posts ->
  posts !! i = Some p ->
  exists pg,
    created (createPages opts r) !! i = Some pg
    /\ path pg = slug p
    /\ component pg = PostTemplate
    /\ context pg
       = PostContext (basePath opts) (basePath opts) (id p)
           (id <$> posts !! (i + 1)%nat)
           (match i with O => None | S j => id <$> posts !! j end)
    /\ ((i + 1)%nat = length posts -> id <$> posts !! (i + 1)%nat = None).
Proof.
  intros He Hd Hi.
  destruct (created_starts_with_post_pages opts r posts He Hd) as [later ->].
  exists (post_page opts posts i p).
  assert (post_pages opts posts !! i = Some (post_page opts posts i p)) as Hpg.
  { unfold post_pages. by rewrite list_lookup_imap, Hi. }
  split; [by apply lookup_app_l_Some|].
  assert ((i + 1)%nat = length posts -> posts !! (i + 1)%nat = None) as Hlast.
  { intros H. apply lookup_ge_None. lia. }
  repeat split.
  - unfold post_page. simpl. f_equal.
    + destruct (Nat.eqb_spec i (length posts - 1)) as [E|_]; [|done].
      apply lookup_lt_Some in Hi. rewrite Hlast by lia. done.
    + destruct i as [|j]; [done|]. simpl. by rewrite Nat.sub_0_r.
  - intros H. by rewrite Hlast.
Qed.

Lemma post_pages_kind opts posts (pg : page) :
  pg ∈ post_pages opts posts ->
  is_listing_page pg = false /\ forall t, is_tag_page_of t pg = false.
Proof.
  unfold post_pages. by intros (i & p & -> & _)%elem_of_lookup_imap.
Qed.

Lemma listing_pages_kind opts posts (pages : list page) (pg : page) :
  listing_pages opts posts = Ok pages -> pg ∈ pages ->
  is_listing_page pg = true /\ forall t, is_tag_page_of t pg = false.
Proof.
  unfold listing_pages. destruct (array_from_length _); [|discriminate].
  simpl. intros [= <-] Hpg.
  by apply list_elem_of_In, in_map_iff in Hpg as (i & <- & _).
Qed.

Lemma pages_of_tag_kind opts counting (global_tags : list jsstring)
    (tag : jsstring) (pages : list page) (pg : page) :
  pages_of_tag opts counting global_tags tag = Ok pages -> pg ∈ pages ->
  is_listing_page pg = false
  /\ forall t, is_tag_page_of t pg = bool_decide (tag = t).
Proof.
  unfold pages_of_tag. destruct (array_from_length _); [|discriminate].
  simpl. intros [= <-] Hpg.
  by apply list_elem_of_In, in_map_iff in Hpg as (i & <- & _).
Qed.

Lemma for_each_tag_kind opts counting (global_tags todo : list jsstring)
    (pg : page) :
  pg ∈ created (for_each_tag opts counting global_tags todo) ->
  is_listing_page pg = false.
Proof.
  induction todo as [|tag todo IH]; simpl; [by intros ?%elem_of_nil|].
  destruct (pages_of_tag opts counting global_tags tag) as [pages|e] eqn:E;
    simpl; [|by intros ?%elem_of_nil].
  intros [H|H]%elem_of_app; [|by apply IH].
  by destruct (pages_of_tag_kind _ _ _ _ _ _ E H).
Qed.

Lemma tag_pages_kind opts posts (pg : page) :
  pg ∈ created (tag_pages opts posts) -> is_listing_page pg = false.
Proof.
  unfold tag_pages. destruct (fold_left _ _ _) as [g c].
  apply for_each_tag_kind.
Qed.

Lemma listing_pages_positive opts posts :
  (0 < postsPerPage opts)%Z ->
  (Z.of_nat (length posts) < 2 ^ 32)%Z ->
  exists n : nat,
    (postsPerPage opts * (Z.of_nat n - 1)
     < Z.of_nat (length (filter_by_type (do_not_count_type_for_pagination opts) posts))
     <= postsPerPage opts * Z.of_nat n)%Z
    /\ listing_pages opts posts
       = Ok (List.map (listing_page opts posts (Num (Z.of_nat n))) (seq 0 n)).
Proof.
  intros Hp Hlen. unfold listing_pages.
  set (m := length (filter_by_type _ posts)).
  assert (m <= length posts)%nat as Hm.
  { subst m. unfold filter_by_type.
    destruct (do_not_count_type_for_pagination opts); [apply List.filter_length_le|done]. }
  destruct (ceil_of_quotient_positive (Z.of_nat m) (postsPerPage opts))
    as (n & -> & Hn & Hnm); [lia|done|].
  exists n. split; [done|]. simpl.
  destruct (Z.ltb_spec (Z.of_nat n) (2 ^ 32)) as [_|?]; [|lia].
  simpl. by rewrite Nat2Z.id.
Qed.

Lemma array_includes_types (xs : list jsstring) (x : jsstring) :
  array_includes xs x = true <-> x ∈ xs.
Proof.
  induction xs as [|y xs IH]; simpl.
  - split; [discriminate|by intros ?%elem_of_nil].
  - rewrite orb_true_iff, bool_decide_eq_true, IH, elem_of_cons.
    split; (intros [H|H]; [left|right]); done.
Qed.

(** The posts [filter_by_type] leaves for the pagination are the posts that
    count: those whose type is not excluded. *)
Lemma filter_by_type_counted opts posts :
  length (filter_by_type (do_not_count_type_for_pagination opts) posts)
  = number_counted opts posts.
Proof.
  induction posts as [|p posts IH]; simpl.
  - unfold filter_by_type. by destruct (do_not_count_type_for_pagination opts).
  - rewrite <- IH. unfold filter_by_type, counts_for_pagination.
    destruct (decide _) as [Hc|Hc]; unfold counts_for_pagination in Hc;
      destruct (do_not_count_type_for_pagination opts) as [types|]; simpl;
      try done.
    + destruct (array_includes types (type p)) eqn:E; [|done].
      by apply array_includes_types in E.
    + destruct (array_includes types (type p)) eqn:E; [done|].
      exfalso. apply Hc. intros H%array_includes_types. congruence.
Qed.

(** C3. For a positive [postsPerPage] and any list of posts (an array has
    fewer than 2^32 elements) the main listing pages are exactly
    [n = ceil(m / postsPerPage)] pages, [m] the number of posts whose type
    is not in [do_not_count_type_for_pagination] (of all posts when the
    option is unset); page [i] (from 0) has the path [basePath] when
    [i = 0] and [basePath] followed by [i + 1] otherwise, and a context with
    [limit = postsPerPage], [skip = i * postsPerPage], [num_of_pages = n],
    [current_page = i + 1]. *)
Theorem main_listing_pages opts r posts :
  (0 < postsPerPage opts)%Z ->
  (Z.of_nat (length posts) < 2 ^ 32)%Z ->
  errors r = None -> data r = Some posts ->
  exists n : nat,
    (postsPerPage opts * (Z.of_nat n - 1)
     < Z.of_nat (number_counted opts posts)
     <= postsPerPage opts * Z.of_nat n)%Z
    /\ List.filter is_listing_page (created (createPages opts r))
       = List.map
           (fun i : nat =>
              {| path :=
                   if (i =? 0)%nat then basePath opts
                   else basePath opts ++ number_to_string (i + 1);
                 component := PostsTemplate;
                 context :=
                   ListContext (basePath opts) (basePath opts)
                     (postsPerPage opts)
                     (Z.of_nat i * postsPerPage opts)%Z
                     (Num (Z.of_nat n))
                     (Z.of_nat i + 1)%Z
                     false
                     (default [] (do_not_count_type_for_pagination opts))
                     posts |})
           (seq 0 n).
Proof.
  intros Hp Hlen He Hd.
  destruct (listing_pages_positive opts posts Hp Hlen) as (n & Hn & Hlist).
  rewrite filter_by_type_counted in Hn.
  exists n. split; [done|].
  unfold createPages. rewrite He, Hd, Hlist. simpl.
  rewrite !List.filter_app.
  rewrite (filter_none is_listing_page (post_pages opts posts))
    by (intros pg Hpg; by destruct (post_pages_kind _ _ _ Hpg)).
  rewrite (filter_none is_listing_page (created (tag_pages opts posts)))
    by apply tag_pages_kind.
  rewrite app_nil_r. simpl. apply filter_all.
  intros pg Hpg. by destruct (listing_pages_kind _ _ _ _ Hlist Hpg).
Qed.

(** *** Counting the tags *)

Lemma array_includes_elem (xs : list jsstring) (x : jsstring) :
  array_includes xs x = true <-> x ∈ xs.
Proof.
  induction xs as [|y xs IH]; simpl.
  - split; [discriminate|by intros ?%elem_of_nil].
  - rewrite orb_true_iff, bool_decide_eq_true, IH, elem_of_cons.
    split; (intros [H|H]; [left|right]); done.
Qed.

Lemma unique_after_elem (seen xs : list jsstring) (x : jsstring) :
  x ∈ unique_after seen xs <-> x ∈ xs /\ x ∉ seen.
Proof.
  revert seen. induction xs as [|y xs IH]; intros seen; simpl.
  - split; [by intros ?%elem_of_nil|by intros [?%elem_of_nil _]].
  - destruct (array_includes seen y) eqn:E.
    + apply array_includes_elem in E. rewrite IH, elem_of_cons.
      split; [intros [H Hx]; split; [by right|done]|].
      intros [[->|H] Hx]; [done|by split].
    + assert (y ∉ seen) as Hy.
      { intros H%array_includes_elem. congruence. }
      rewrite !elem_of_cons, IH, not_elem_of_cons. split.
      * intros [->|[H [Hne Hx]]]; [by split; [left|]|by split; [right|]].
      * intros [[->|H] Hx]; [by left|].
        destruct (decide (x = y)) as [->|Hne]; [by left|by right].
Qed.

Lemma unique_after_NoDup (seen xs : list jsstring) :
  NoDup (unique_after seen xs).
Proof.
  revert seen. induction xs as [|y xs IH]; intros seen; simpl; [constructor|].
  destruct (array_includes seen y); [apply IH|].
  constructor; [|apply IH].
  rewrite unique_after_elem, not_elem_of_cons. by intros [_ [? _]].
Qed.

Lemma set_to_array_elem (xs : list jsstring) (x : jsstring) :
  x ∈ set_to_array xs <-> x ∈ xs.
Proof.
  unfold set_to_array. rewrite unique_after_elem.
  split; [by intros [H _]|]. intros H. split; [done|]. apply not_elem_of_nil.
Qed.

Lemma collect_tags_fold posts (g : list jsstring) (c : gmap jsstring number) :
  fold_left collect_tags posts (g, c)
  = (g ++ flat_map tags posts, fold_left count_tag (flat_map tags posts) c).
Proof.
  revert g c. induction posts as [|p posts IH]; intros g c; simpl.
  - by rewrite app_nil_r.
  - unfold collect_tags at 2. simpl. rewrite IH, fold_left_app.
    by rewrite <- app_assoc.
Qed.

(** The number of times [tag] stands in a list of tags. *)
Local Abbreviation times tag l :=
  (length (List.filter (fun t : jsstring => bool_decide (t = tag)) l)).

(** What [counting_by_tags] holds for a key that is not inherited, after
    the key was counted [k] times. *)
Local Abbreviation held k :=
  (match k%nat with O => None | S _ => Some (Num (Z.of_nat k)) end).

Lemma count_tag_other (o : gmap jsstring number) (tag key : jsstring) :
  tag <> key -> count_tag o tag !! key = o !! key.
Proof.
  intros Hne. unfold count_tag, set.
  case_bool_decide; [by destruct (falsy _)|].
  rewrite lookup_insert_ne by done.
  destruct (falsy _); [by rewrite lookup_insert_ne|done].
Qed.

Lemma get_own (o : gmap jsstring number) (key : jsstring) (v : number) :
  o !! key = Some v -> get o key = Own v.
Proof. unfold get. by intros ->. Qed.

Lemma get_missing (o : gmap jsstring number) (key : jsstring) :
  array_includes object_prototype_keys key = false ->
  o !! key = None -> get o key = Missing.
Proof. unfold get. by intros -> ->. Qed.

Lemma set_insert (o : gmap jsstring number) (key : jsstring) (v : number) :
  key <> js "__proto__" -> set o key v = <[key := v]> o.
Proof. intros H. unfold set. by rewrite bool_decide_eq_false_2. Qed.

Lemma count_tag_same (o : gmap jsstring number) (tag : jsstring) (k : nat) :
  array_includes object_prototype_keys tag = false ->
  o !! tag = held k -> count_tag o tag !! tag = held (S k).
Proof.
  intros Hord Ho.
  assert (tag <> js "__proto__") as Hproto by (by intros ->).
  unfold count_tag. destruct k as [|k].
  - rewrite (get_missing o tag Hord Ho). cbn [falsy].
    rewrite !set_insert by done.
    rewrite (get_own _ tag (Num 0)) by apply lookup_insert_eq.
    by rewrite lookup_insert_eq.
  - rewrite !(get_own o tag _ Ho). cbn [falsy to_number increment].
    destruct (Z.eqb_spec (Z.of_nat (S k)) 0) as [?|_]; [lia|].
    rewrite (get_own o tag _ Ho). cbn [to_number increment].
    rewrite set_insert by done. rewrite lookup_insert_eq.
    do 2 f_equal. lia.
Qed.

Lemma count_tags_ordinary (l : list jsstring) (o : gmap jsstring number)
    (tag : jsstring) (k : nat) :
  array_includes object_prototype_keys tag = false ->
  o !! tag = held k ->
  fold_left count_tag l o !! tag = held (k + times tag l).
Proof.
  intros Hord. revert o k. induction l as [|t l IH]; intros o k Ho; simpl.
  - by rewrite Nat.add_0_r.
  - case_bool_decide as E.
    + subst t. simpl length. rewrite Nat.add_succ_r.
      apply (IH _ (S k)). by apply count_tag_same.
    + apply IH. by rewrite count_tag_other.
Qed.

(** Every count held is [NaN] or a number between 0 and [b]. *)
Local Abbreviation within b v :=
  (v = NaN \/ exists z, v = Num z /\ (0 <= z <= b)%Z).

Lemma count_tag_within (o : gmap jsstring number) (tag : jsstring) (b : Z) :
  (0 <= b)%Z ->
  (forall key v, o !! key = Some v -> within b v) ->
  forall key v, count_tag o tag !! key = Some v -> within (b + 1) v.
Proof.
  intros Hb Ho.
  assert (forall key v, o !! key = Some v -> within (b + 1) v) as Ho'.
  { intros key v [->|(z & -> & Hz)]%Ho; [by left|right; exists z; split; [done|lia]]. }
  assert (forall o1 : gmap jsstring number,
            (forall key v, o1 !! key = Some v -> within b v) ->
            within (b + 1) (increment (to_number (get o1 tag)))) as Hnew.
  { intros o1 Ho1. unfold get. destruct (o1 !! tag) as [v|] eqn:E.
    - destruct (Ho1 _ _ E) as [->|(z & -> & Hz)]; [by left|].
      right. exists (z + 1)%Z. split; [done|lia].
    - left. by destruct (array_includes _ _). }
  assert (forall key v, set o tag (Num 0) !! key = Some v -> within b v) as Hzero.
  { intros key v. unfold set. case_bool_decide; [apply Ho|].
    destruct (decide (tag = key)) as [->|Hne].
    - rewrite lookup_insert_eq. intros [= <-]. right. exists 0%Z. split; [done|lia].
    - rewrite lookup_insert_ne by done. apply Ho. }
  intros key v. unfold count_tag.
  destruct (falsy (get o tag)).
  - unfold set at 1. case_bool_decide.
    + intros [->|(z & -> & Hz)]%Hzero; [by left|right; exists z; split; [done|lia]].
    + destruct (decide (tag = key)) as [->|Hne].
      * rewrite lookup_insert_eq. intros [= <-]. by apply Hnew.
      * rewrite lookup_insert_ne by done.
        intros [->|(z & -> & Hz)]%Hzero; [by left|right; exists z; split; [done|lia]].
  - unfold set at 1. case_bool_decide; [apply Ho'|].
    destruct (decide (tag = key)) as [->|Hne].
    + rewrite lookup_insert_eq. intros [= <-]. by apply Hnew.
    + rewrite lookup_insert_ne by done. apply Ho'.
Qed.

Lemma count_tags_within (l : list jsstring) (o : gmap jsstring number) (b : Z) :
  (0 <= b)%Z ->
  (forall key v, o !! key = Some v -> within b v) ->
  forall key v,
    fold_left count_tag l o !! key = Some v -> within (b + Z.of_nat (length l)) v.
Proof.
  revert o b. induction l as [|t l IH]; intros o b Hb Ho key v; simpl length.
  - simpl. rewrite Z.add_0_r. apply Ho.
  - simpl fold_left. intros H.
    replace (b + Z.of_nat (S (length l)))%Z with (b + 1 + Z.of_nat (length l))%Z by lia.
    apply (IH (count_tag o t) (b + 1)%Z) with (key := key); [lia| |done].
    by apply count_tag_within.
Qed.

Lemma read_within (o : gmap jsstring number) (b : Z) (key : jsstring) :
  (forall key v, o !! key = Some v -> within b v) ->
  within b (to_number (get o key)).
Proof.
  intros Ho. unfold get. destruct (o !! key) as [v|] eqn:E; [by apply Ho in E|].
  left. by destruct (array_includes _ _).
Qed.

(** With a positive [postsPerPage] and counts an array can hold, no tag's
    pages throw. *)
Lemma pages_of_tag_total opts (o : gmap jsstring number)
    (global_tags : list jsstring) (tag : jsstring) (b : Z) :
  (0 < postsPerPage opts)%Z -> (b < 2 ^ 32)%Z ->
  (forall key v, o !! key = Some v -> within b v) ->
  exists pages, pages_of_tag opts o global_tags tag = Ok pages.
Proof.
  intros Hp Hb Ho. unfold pages_of_tag.
  destruct (read_within o b tag Ho) as [->|(z & -> & Hz)]; [simpl; eauto|].
  destruct (ceil_of_quotient_positive z (postsPerPage opts)) as (n & -> & _ & Hn);
    [lia|done|].
  simpl. destruct (Z.ltb_spec (Z.of_nat n) (2 ^ 32)); [|lia]. simpl. eauto.
Qed.

Lemma for_each_tag_filter opts (o : gmap jsstring number)
    (global_tags todo : list jsstring) (tag : jsstring) :
  (forall t, exists pages, pages_of_tag opts o global_tags t = Ok pages) ->
  NoDup todo ->
  ending (for_each_tag opts o global_tags todo) = Completed
  /\ List.filter (is_tag_page_of tag)
       (created (for_each_tag opts o global_tags todo))
     = if bool_decide (tag ∈ todo)
       then match pages_of_tag opts o global_tags tag with
            | Ok pages => pages
            | Throw _ => []
            end
       else [].
Proof.
  intros Hok. induction todo as [|t todo IH]; intros Hnd; [done|].
  apply NoDup_cons in Hnd as [Ht Hnd]. destruct (IH Hnd) as [IHe IHf].
  simpl. destruct (Hok t) as [pages Hpages]. rewrite Hpages. simpl.
  split; [done|]. rewrite List.filter_app, IHf.
  destruct (decide (t = tag)) as [->|Hne].
  - rewrite (bool_decide_eq_false_2 (tag ∈ todo)) by done.
    rewrite bool_decide_eq_true_2 by left. rewrite Hpages, app_nil_r.
    apply filter_all. intros pg Hpg.
    destruct (pages_of_tag_kind _ _ _ _ _ _ Hpages Hpg) as [_ ->].
    by apply bool_decide_eq_true_2.
  - rewrite (filter_none (is_tag_page_of tag) pages).
    + simpl. rewrite (bool_decide_ext (tag ∈ todo) (tag ∈ t :: todo)); [done|].
      rewrite elem_of_cons. split; [by right|]. by intros [->|H].
    + intros pg Hpg.
      destruct (pages_of_tag_kind _ _ _ _ _ _ Hpages Hpg) as [_ ->].
      by apply bool_decide_eq_false_2.
Qed.

(** *** The tag pages of a run *)

Lemma times_elem (tag : jsstring) (l : list jsstring) :
  tag ∈ l <-> (0 < times tag l)%nat.
Proof.
  induction l as [|t l IH]; simpl.
  - split; [by intros ?%elem_of_nil|lia].
  - rewrite elem_of_cons, IH. case_bool_decide as E; simpl.
    + split; [lia|]. intros _. by left.
    + split; [by intros [->|H]|by right].
Qed.

Lemma tag_pages_filter opts posts (tag : jsstring) :
  (0 < postsPerPage opts)%Z ->
  (Z.of_nat (length (flat_map tags (posts_in_tag_lists opts posts))) < 2 ^ 32)%Z ->
  let all := flat_map tags (posts_in_tag_lists opts posts) in
  ending (tag_pages opts posts) = Completed
  /\ List.filter (is_tag_page_of tag) (created (tag_pages opts posts))
     = if bool_decide (tag ∈ all)
       then match pages_of_tag opts (fold_left count_tag all ∅)
                    (set_to_array all) tag with
            | Ok pages => pages
            | Throw _ => []
            end
       else [].
Proof.
  intros Hp Hlen all. fold all in Hlen. unfold tag_pages.
  fold (posts_in_tag_lists opts posts). rewrite collect_tags_fold. simpl.
  fold all.
  rewrite <- (bool_decide_ext _ _ (set_to_array_elem all tag)).
  apply for_each_tag_filter; [|apply unique_after_NoDup].
  intros t.
  apply (pages_of_tag_total opts _ _ t (0 + Z.of_nat (length all))); [done|lia|].
  apply count_tags_within; [lia|]. intros key v. by rewrite lookup_empty.
Qed.

Lemma pages_of_counted_tag opts posts (tag : jsstring) :
  (0 < postsPerPage opts)%Z ->
  (Z.of_nat (length (flat_map tags (posts_in_tag_lists opts posts))) < 2 ^ 32)%Z ->
  array_includes object_prototype_keys tag = false ->
  (0 < occurrences tag (posts_in_tag_lists opts posts))%nat ->
  let all := flat_map tags (posts_in_tag_lists opts posts) in
  exists n : nat,
    (postsPerPage opts * (Z.of_nat n - 1)
     < Z.of_nat (occurrences tag (posts_in_tag_lists opts posts))
     <= postsPerPage opts * Z.of_nat n)%Z
    /\ pages_of_tag opts (fold_left count_tag all ∅) (set_to_array all) tag
       = Ok (List.map (tag_page opts (set_to_array all) tag (Num (Z.of_nat n)))
               (seq 0 n)).
Proof.
  intros Hp Hlen Hord Hocc all. unfold occurrences in *.
  fold all in Hlen, Hocc |- *.
  pose proof (count_tags_ordinary all ∅ tag 0 Hord (lookup_empty tag)) as Hc.
  simpl in Hc. destruct (times tag all) as [|c] eqn:Ec; [lia|].
  assert (S c <= length all)%nat as Hle.
  { rewrite <- Ec. apply List.filter_length_le. }
  destruct (ceil_of_quotient_positive (Z.of_nat (S c)) (postsPerPage opts))
    as (n & Hceil & Hn & Hnc); [lia|done|].
  exists n. split; [done|]. unfold pages_of_tag.
  rewrite (get_own _ tag _ Hc). cbn [to_number]. rewrite Hceil. simpl.
  destruct (Z.ltb_spec (Z.of_nat n) (2 ^ 32)); [|lia]. simpl.
  by rewrite Nat2Z.id.
Qed.

Lemma tag_pages_created opts r posts (tag : jsstring) :
  (0 < postsPerPage opts)%Z ->
  (Z.of_nat (length posts) < 2 ^ 32)%Z ->
  (Z.of_nat (length (flat_map tags (posts_in_tag_lists opts posts))) < 2 ^ 32)%Z ->
  errors r = None -> data r = Some posts ->
  array_includes object_prototype_keys tag = false ->
  (0 < occurrences tag (posts_in_tag_lists opts posts))%nat ->
  exists n : nat,
    (postsPerPage opts * (Z.of_nat n - 1)
     < Z.of_nat (occurrences tag (posts_in_tag_lists opts posts))
     <= postsPerPage opts * Z.of_nat n)%Z
    /\ ending (createPages opts r) = Completed
    /\ List.filter (is_tag_page_of tag) (created (createPages opts r))
       = List.map
           (tag_page opts
              (set_to_array (flat_map tags (posts_in_tag_lists opts posts)))
              tag (Num (Z.of_nat n)))
           (seq 0 n).
Proof.
  intros Hp Hlen Hlen' He Hd Hord Hocc.
  destruct (pages_of_counted_tag opts posts tag Hp Hlen' Hord Hocc)
    as (n & Hn & Hpages).
  destruct (tag_pages_filter opts posts tag Hp Hlen') as [Hend Hfilter].
  destruct (listing_pages_positive opts posts Hp Hlen) as (k & _ & Hlist).
  exists n. split; [done|].
  unfold createPages. rewrite He, Hd, Hlist. simpl. split; [done|].
  rewrite !List.filter_app.
  rewrite (filter_none _ (post_pages opts posts))
    by (intros pg Hpg; by destruct (post_pages_kind _ _ _ Hpg)).
  rewrite (filter_none _ (List.map _ (seq 0 k)))
    by (intros pg Hpg; by destruct (listing_pages_kind _ _ _ _ Hlist Hpg)).
  simpl. rewrite Hfilter, Hpages.
  rewrite bool_decide_eq_true_2; [done|]. by apply times_elem.
Qed.

Lemma times_NoDup (tag : jsstring) (l : list jsstring) :
  NoDup l -> times tag l = if array_includes l tag then 1%nat else 0%nat.
Proof.
  induction 1 as [|t l Ht Hnd IH]; [done|]. simpl.
  case_bool_decide as E; simpl; [|done].
  subst t. rewrite IH.
  destruct (array_includes l tag) eqn:Hin; [|done].
  by apply array_includes_elem in Hin.
Qed.

(** Where no post repeats a tag, a tag stands as often as there are posts
    that carry it. *)
Lemma occurrences_posts_carrying (tag : jsstring) posts :
  (forall p, p ∈ posts -> NoDup (tags p)) ->
  occurrences tag posts = posts_carrying tag posts.
Proof.
  unfold occurrences, posts_carrying.
  induction posts as [|p posts IH]; intros Hnd; [done|]. simpl.
  rewrite List.filter_app, length_app, IH
    by (intros q Hq; apply Hnd; by right).
  rewrite (times_NoDup tag (tags p)) by (apply Hnd; left).
  by destruct (array_includes (tags p) tag).
Qed.

Lemma for_each_tag_ignores_option opts (o : gmap jsstring number)
    (global_tags todo : list jsstring) (v : option jsstring) :
  for_each_tag (with_do_not_create_tag_page_for v opts) o global_tags todo
  = for_each_tag opts o global_tags todo.
Proof.
  induction todo as [|t todo IH]; [done|]. simpl. rewrite IH.
  change (pages_of_tag (with_do_not_create_tag_page_for v opts) o global_tags t)
    with (pages_of_tag opts o global_tags t).
  done.
Qed.

Lemma createPages_ignores_option opts r (v : option jsstring) :
  createPages (with_do_not_create_tag_page_for v opts) r = createPages opts r.
Proof.
  unfold createPages. destruct (errors r); [done|].
  destruct (data r) as [posts|]; [|done].
  change (listing_pages (with_do_not_create_tag_page_for v opts) posts)
    with (listing_pages opts posts).
  change (post_pages (with_do_not_create_tag_page_for v opts) posts)
    with (post_pages opts posts).
  assert (tag_pages (with_do_not_create_tag_page_for v opts) posts
          = tag_pages opts posts) as ->; [|done].
  unfold tag_pages. simpl.
  destruct (fold_left collect_tags _ _) as [g c].
  apply for_each_tag_ignores_option.
Qed.

(** C6, as amended. For a positive [postsPerPage], arrays [posts] and
    [global_tags] of fewer than 2^32 elements and a tag that is not the name
    of a property objects inherit, the pages of the tag are
    exactly [n = ceil(c / postsPerPage)] pages, [c] the number of times
    the tag stands in the tag lists of the posts left by the
    [do_not_include_type_in_lists] filter (the number of those posts that
    carry it when no post repeats a tag); page [i] (from 0) has the path
    [basePath + tagsPath + "/" + tag + "/"], followed by [i + 1] when
    [i > 0], and a context with [limit = postsPerPage] and
    [skip = i * postsPerPage]. *)
Theorem tag_pages_by_occurrences opts r posts (tag : jsstring) :
  (0 < postsPerPage opts)%Z ->
  (Z.of_nat (length posts) < 2 ^ 32)%Z ->
  (Z.of_nat (length (flat_map tags (posts_in_tag_lists opts posts))) < 2 ^ 32)%Z ->
  errors r = None -> data r = Some posts ->
  array_includes object_prototype_keys tag = false ->
  (0 < occurrences tag (posts_in_tag_lists opts posts))%nat ->
  exists n : nat,
    (postsPerPage opts * (Z.of_nat n - 1)
     < Z.of_nat (occurrences tag (posts_in_tag_lists opts posts))
     <= postsPerPage opts * Z.of_nat n)%Z
    /\ ((forall p, p ∈ posts_in_tag_lists opts posts -> NoDup (tags p)) ->
        occurrences tag (posts_in_tag_lists opts posts)
        = posts_carrying tag (posts_in_tag_lists opts posts))
    /\ List.filter (is_tag_page_of tag) (created (createPages opts r))
       = List.map
           (fun i : nat =>
              {| path :=
                   if (i =? 0)%nat
                   then basePath opts ++ tagsPath opts ++ js "/" ++ tag ++ js "/"
                   else basePath opts ++ tagsPath opts ++ js "/" ++ tag ++ js "/"
                        ++ number_to_string (i + 1);
                 component := PostsTemplate;
                 context :=
                   TagContext (basePath opts)
                     (basePath opts ++ tagsPath opts ++ js "/" ++ tag)
                     (postsPerPage opts)
                     (Z.of_nat i * postsPerPage opts)%Z
                     (Num (Z.of_nat n))
                     (Z.of_nat i + 1)%Z
                     tag
                     (set_to_array (flat_map tags (posts_in_tag_lists opts posts)))
                     true |})
           (seq 0 n).
Proof.
  intros Hp Hlen Hlen' He Hd Hord Hocc.
  destruct (tag_pages_created opts r posts tag Hp Hlen Hlen' He Hd Hord Hocc)
    as (n & Hn & _ & Hpages).
  exists n. split; [done|]. split; [apply occurrences_posts_carrying|].
  rewrite Hpages. apply List.map_ext. intros i. unfold tag_page.
  f_equal. destruct (i =? 0)%nat; by rewrite <- !app_assoc.
Qed.

(** C8, as amended. The run is the same whatever [do_not_create_tag_page_for] holds:
    the option has no effect. In particular the tag it names, when it stands
    in the tag lists of the listed posts, has its first page like every
    other tag (for a positive [postsPerPage], arrays of fewer than 2^32
    elements and a tag that is not the name of an inherited property, which
    is where a tag has pages at all). *)
Theorem do_not_create_tag_page_for_ignored opts r (v : option jsstring) :
  createPages (with_do_not_create_tag_page_for v opts) r = createPages opts r
  /\ forall posts (tag : jsstring),
      v = Some tag ->
      (0 < postsPerPage opts)%Z ->
      (Z.of_nat (length posts) < 2 ^ 32)%Z ->
      (Z.of_nat (length (flat_map tags (posts_in_tag_lists opts posts))) < 2 ^ 32)%Z ->
      errors r = None -> data r = Some posts ->
      array_includes object_prototype_keys tag = false ->
      (0 < occurrences tag (posts_in_tag_lists opts posts))%nat ->
      exists pg,
        pg ∈ created (createPages (with_do_not_create_tag_page_for v opts) r)
        /\ path pg = basePath opts ++ tagsPath opts ++ js "/" ++ tag ++ js "/"
        /\ is_tag_page_of tag pg = true.
Proof.
  split; [apply createPages_ignores_option|].
  intros posts tag _ Hp Hlen Hlen' He Hd Hord Hocc.
  rewrite createPages_ignores_option.
  destruct (tag_pages_created opts r posts tag Hp Hlen Hlen' He Hd Hord Hocc)
    as (n & Hn & _ & Hpages).
  destruct n as [|n]; [lia|].
  set (g := set_to_array _) in Hpages.
  exists (tag_page opts g tag (Num (Z.of_nat (S n))) 0).
  assert (In (tag_page opts g tag (Num (Z.of_nat (S n))) 0)
            (List.filter (is_tag_page_of tag) (created (createPages opts r))))
    as [Hin Hkind]%filter_In.
  { rewrite Hpages. simpl. by left. }
  split; [by apply list_elem_of_In|]. split; [|done].
  unfold tag_page. simpl path. by rewrite <- !app_assoc.
Qed.
End CreatePagesFacts.

Lemma query_errors_abort_witness :
  CreatePages.createPages Sample.options
    {| CreatePages.errors := Some [js "Cannot query field"];
       CreatePages.data := None |}
  = {| CreatePages.created := [];
       CreatePages.ending := CreatePages.Panicked [js "Cannot query field"] |}.
Proof. apply query_errors_abort. reflexivity. Defined.

Lemma post_page_siblings_witness :
  let posts := [Sample.blog_post "c" "" []; Sample.blog_post "b" "" [];
                Sample.blog_post "a" "" []] in
  let pages :=
    CreatePages.created
      (CreatePages.createPages Sample.options (Sample.answer posts)) in
  CreatePages.context <$> pages !! 0%nat
    = Some (CreatePages.PostContext (js "/") (js "/") (js "c") (Some (js "b")) None)
  /\ CreatePages.context <$> pages !! 1%nat
     = Some (CreatePages.PostContext (js "/") (js "/") (js "b")
               (Some (js "a")) (Some (js "c")))
  /\ CreatePages.context <$> pages !! 2%nat
     = Some (CreatePages.PostContext (js "/") (js "/") (js "a") None (Some (js "b"))).
Proof.
  intros posts pages.
  destruct (post_page_siblings Sample.options (Sample.answer posts) posts 0
              (Sample.blog_post "c" "" []) eq_refl eq_refl eq_refl)
    as (pg0 & Hl0 & _ & _ & Hc0 & _).
  destruct (post_page_siblings Sample.options (Sample.answer posts) posts 1
              (Sample.blog_post "b" "" []) eq_refl eq_refl eq_refl)
    as (pg1 & Hl1 & _ & _ & Hc1 & _).
  destruct (post_page_siblings Sample.options (Sample.answer posts) posts 2
              (Sample.blog_post "a" "" []) eq_refl eq_refl eq_refl)
    as (pg2 & Hl2 & _ & _ & Hc2 & _).
  unfold pages. rewrite Hl0, Hl1, Hl2. simpl. rewrite Hc0, Hc1, Hc2.
  repeat split.
Defined.

Lemma main_listing_pages_witness :
  let posts := [Sample.blog_post "d" "" []; Sample.blog_post "c" "recipe" [];
                Sample.blog_post "b" "" []; Sample.blog_post "a" "" []] in
  do_not_count_type_for_pagination Sample.blog_options = Some [js "recipe"]
  /\ postsPerPage Sample.blog_options = 3%Z
  /\ length posts = 4%nat
  /\ number_counted Sample.blog_options posts = 3%nat
  /\ List.map CreatePages.path
       (List.filter is_listing_page
          (CreatePages.created
             (CreatePages.createPages Sample.blog_options (Sample.answer posts))))
     = [js "/blog/"].
Proof.
  intros posts.
  assert (number_counted Sample.blog_options posts = 3%nat) as Hm by reflexivity.
  repeat (split; [reflexivity|]).
  destruct (main_listing_pages Sample.blog_options (Sample.answer posts) posts)
    as (n & Hn & Hpages); [reflexivity|reflexivity|reflexivity|reflexivity|].
  rewrite Hpages. rewrite Hm in Hn. simpl in Hn.
  assert (n = 1%nat) as -> by lia. reflexivity.
Defined.

(** C6, as stated, fails on a post that repeats a tag: one post carries the
    tag [a], so with one post a page one page of the tag is due, and two
    are created. *)
Lemma repeated_tag_counts_twice :
  let posts := [Sample.blog_post "p" "" [js "a"; js "a"]] in
  posts_carrying (js "a") (posts_in_tag_lists Sample.options posts) = 1%nat
  /\ postsPerPage Sample.options = 1%Z
  /\ List.map CreatePages.path
       (List.filter (is_tag_page_of (js "a"))
          (CreatePages.created
             (CreatePages.createPages Sample.options (Sample.answer posts))))
     = [js "/tags/a/"; js "/tags/a/2"].
Proof. repeat split. Qed.

(** A tag named like an inherited property is read from the prototype the
    first time it is counted: one occurrence counts as [NaN], and the tag
    gets no page. *)
Example constructor_tag_has_no_page :
  let posts := [Sample.blog_post "p" "" [js "constructor"; js "gatsby"]] in
  List.map CreatePages.path
    (List.filter is_post_page
       (CreatePages.created
          (CreatePages.createPages Sample.options (Sample.answer posts))))
  = [js "/p"]
  /\ List.filter (is_tag_page_of (js "constructor"))
       (CreatePages.created
          (CreatePages.createPages Sample.options (Sample.answer posts)))
     = []
  /\ List.map CreatePages.path
       (List.filter (is_tag_page_of (js "gatsby"))
          (CreatePages.created
             (CreatePages.createPages Sample.options (Sample.answer posts))))
     = [js "/tags/gatsby/"].
Proof. repeat split. Qed.

Lemma tag_pages_by_occurrences_witness :
  let posts := [Sample.blog_post "e" "" [js "gatsby"; js "misc"];
                Sample.blog_post "d" "draft" [js "gatsby"];
                Sample.blog_post "c" "" [js "gatsby"];
                Sample.blog_post "b" "" [js "gatsby"; js "react"];
                Sample.blog_post "a" "" [js "gatsby"]] in
  List.map CreatePages.path
    (List.filter (is_tag_page_of (js "gatsby"))
       (CreatePages.created
          (CreatePages.createPages Sample.blog_options (Sample.answer posts))))
  = [js "/blog/tags/gatsby/"; js "/blog/tags/gatsby/2"].
Proof.
  intros posts.
  destruct (tag_pages_by_occurrences Sample.blog_options (Sample.answer posts)
              posts (js "gatsby"))
    as (n & Hn & _ & Hpages);
    [reflexivity|reflexivity|reflexivity|reflexivity|reflexivity|reflexivity
    |vm_compute; lia|].
  rewrite Hpages.
  assert (occurrences (js "gatsby") (posts_in_tag_lists Sample.blog_options posts)
          = 4%nat) as Hocc by reflexivity.
  rewrite Hocc in Hn. simpl in Hn.
  assert (n = 2%nat) as -> by lia. reflexivity.
Defined.

(** C8, as stated, fails where a tag has no page at all, named by the option
    or not: with [postsPerPage] 0 the run throws before any tag page, and a
    tag named [constructor] that occurs once is counted as [NaN]. *)
Lemma named_tag_without_page :
  let posts := [Sample.blog_post "p" "" [js "constructor"; js "gatsby"]] in
  let zero :=
    {| basePath := js "/"; postsPath := js "posts"; recipesPath := js "recipes";
       tagsPath := js "tags"; postsPerPage := 0%Z;
       do_not_count_type_for_pagination := None;
       do_not_include_type_in_lists := None;
       do_not_create_tag_page_for := Some (js "gatsby") |} in
  let named :=
    with_do_not_create_tag_page_for (Some (js "constructor")) Sample.options in
  (List.map CreatePages.path
     (CreatePages.created (CreatePages.createPages zero (Sample.answer posts)))
   = [js "/p"]
   /\ CreatePages.ending (CreatePages.createPages zero (Sample.answer posts))
      = CreatePages.Threw RangeError)
  /\ (postsPerPage named = 1%Z
      /\ List.filter (is_tag_page_of (js "constructor"))
           (CreatePages.created
              (CreatePages.createPages named (Sample.answer posts)))
         = []
      /\ List.map CreatePages.path
           (List.filter (is_tag_page_of (js "gatsby"))
              (CreatePages.created
                 (CreatePages.createPages named (Sample.answer posts))))
         = [js "/tags/gatsby/"]).
Proof. repeat split. Qed.

Lemma do_not_create_tag_page_for_ignored_witness :
  let posts := [Sample.blog_post "b" "" [js "gatsby"; js "misc"];
                Sample.blog_post "a" "" [js "gatsby"]] in
  do_not_create_tag_page_for Sample.blog_options = Some (js "misc")
  /\ CreatePages.createPages
       (with_do_not_create_tag_page_for None Sample.blog_options)
       (Sample.answer posts)
     = CreatePages.createPages Sample.blog_options (Sample.answer posts)
  /\ exists pg,
      pg ∈ CreatePages.created
             (CreatePages.createPages Sample.blog_options (Sample.answer posts))
      /\ CreatePages.path pg = js "/blog/tags/misc/"
      /\ is_tag_page_of (js "misc") pg = true.
Proof.
  intros posts. split; [reflexivity|].
  split;
    [exact (proj1 (do_not_create_tag_page_for_ignored Sample.blog_options
                     (Sample.answer posts) None))|].
  apply (proj2 (do_not_create_tag_page_for_ignored Sample.blog_options
                  (Sample.answer posts) (Some (js "misc"))) posts (js "misc"));
    [reflexivity|reflexivity|reflexivity|reflexivity|reflexivity|reflexivity
    |reflexivity|vm_compute; lia].
Defined.

(** * Further properties of the hooks *)

(** ** [replacePath] and the string helpers *)

Lemma remove_final_slash_keeps (s : jsstring) :
  ends_with_slash s = false -> remove_final_slash s = s.
Proof.
  induction s as [|c s IH]; [done|]. destruct s as [|c' s'].
  - simpl. by intros ->.
  - intros H. change (remove_final_slash (c :: c' :: s'))
      with (c :: remove_final_slash (c' :: s')).
    f_equal. by apply IH.
Qed.

Lemma remove_final_slash_drops (s : jsstring) :
  ends_with_slash s = true -> remove_final_slash s ++ js "/" = s.
Proof.
  induction s as [|c s IH]; [discriminate|]. destruct s as [|c' s'].
  - simpl. intros H. rewrite H. apply N.eqb_eq in H. by subst c.
  - intros H. change (remove_final_slash (c :: c' :: s'))
      with (c :: remove_final_slash (c' :: s')).
    simpl app. f_equal. by apply IH.
Qed.

(** X1. [replacePath] takes exactly one final slash off a path that ends in
    one, and returns every other path, the root [/] and the empty path among
    them, as it is. *)
Theorem replacePath_drops_one_slash (p : jsstring) :
  (p = js "/" \/ ends_with_slash p = false -> replacePath p = p)
  /\ (p <> js "/" -> ends_with_slash p = true -> replacePath p ++ js "/" = p).
Proof.
  unfold replacePath. split.
  - intros [->|H]; [done|]. case_decide; [done|]. by apply remove_final_slash_keeps.
  - intros Hne H. case_decide; [done|]. by apply remove_final_slash_drops.
Qed.

Lemma replacePath_drops_one_slash_witness :
  replacePath (js "") = js ""
  /\ replacePath (js "/blog") = js "/blog"
  /\ replacePath (js "/blog/") ++ js "/" = js "/blog/".
Proof.
  split; [|split].
  - apply (proj1 (replacePath_drops_one_slash (js ""))). by right.
  - apply (proj1 (replacePath_drops_one_slash (js "/blog"))). by right.
  - apply (proj2 (replacePath_drops_one_slash (js "/blog/"))); [discriminate|done].
Defined.

Lemma split_not_nil (sep : N) (s : jsstring) : split sep s <> [].
Proof.
  induction s as [|c s IH]; [done|]. simpl.
  destruct (c =? sep); [done|]. by destruct (split sep s).
Qed.

Lemma split_app_sep (sep : N) (pre rest : jsstring) :
  split sep (pre ++ sep :: rest) = split sep pre ++ split sep rest.
Proof.
  induction pre as [|c pre IH]; simpl.
  - by rewrite N.eqb_refl.
  - destruct (c =? sep); [by rewrite IH|]. rewrite IH.
    pose proof (split_not_nil sep pre) as Hne.
    by destruct (split sep pre).
Qed.

Lemma split_no_sep (sep : N) (s : jsstring) :
  Forall (fun c => c <> sep) s -> split sep s = [s].
Proof.
  induction 1 as [|c s Hc _ IH]; [done|]. simpl.
  destruct (N.eqb_spec c sep) as [?|_]; [done|]. by rewrite IH.
Qed.

(** The last piece of a string is what follows its last separator. *)
Lemma pop_split (sep : N) (pre name : jsstring) :
  Forall (fun c => c <> sep) name ->
  pop (split sep (pre ++ sep :: name)) = name.
Proof.
  intros H. unfold pop. rewrite split_app_sep, (split_no_sep sep name H).
  apply last_last.
Qed.

Lemma split_length (sep : N) (s : jsstring) :
  length (split sep s) = S (length (List.filter (fun c => c =? sep) s)).
Proof.
  induction s as [|c s IH]; [done|]. simpl.
  destruct (c =? sep); simpl; [by rewrite IH|].
  pose proof (split_not_nil sep s) as Hne.
  destruct (split sep s); [done|]. simpl in *. done.
Qed.

(** ** [onCreatePage] *)

(** X2. A page that [onCreatePage] creates has a [basePath] entry in its
    context, and is deleted first; handing the created page's context the
    theme's [basePath] a second time changes nothing. *)
Theorem recreated_page_has_basePath (urlResolve : jsstring -> jsstring -> jsstring)
    (other_fields : Type) (opts : theme_options)
    (p p' : OnCreatePage.page other_fields) :
  OnCreatePage.CreatePage p' ∈ OnCreatePage.onCreatePage urlResolve opts p ->
  OnCreatePage.onCreatePage urlResolve opts p
    = [OnCreatePage.DeletePage p; OnCreatePage.CreatePage p']
  /\ is_Some (OnCreatePage.context p' !! js "basePath")
  /\ OnCreatePage.context_with_basePath opts p' = OnCreatePage.context p'.
Proof.
  unfold OnCreatePage.onCreatePage.
  destruct (includes (OnCreatePage.path p) (js "404")); [by intros ?%elem_of_nil|].
  intros [H|H]%elem_of_cons; [discriminate|].
  apply list_elem_of_singleton in H. injection H as ->.
  split; [done|]. simpl. split.
  - rewrite context_with_basePath_lookup.
    destruct (OnCreatePage.context p !! js "basePath"); [eauto|].
    case_decide; [eauto|done].
  - apply map_eq. intros k.
    rewrite (context_with_basePath_lookup _ opts
               {| OnCreatePage.path := _; OnCreatePage.context := _;
                  OnCreatePage.rest := OnCreatePage.rest p |} k).
    simpl. rewrite context_with_basePath_lookup.
    destruct (OnCreatePage.context p !! k); [done|]. by case_decide.
Qed.

Lemma recreated_page_has_basePath_witness :
  let p := {| OnCreatePage.path := js "/about/";
              OnCreatePage.context := {[ js "lang" := VStr (js "en") ]};
              OnCreatePage.rest := tt |} in
  let p' := {| OnCreatePage.path := js "/blog/about";
               OnCreatePage.context :=
                 OnCreatePage.context_with_basePath Sample.blog_options p;
               OnCreatePage.rest := tt |} in
  OnCreatePage.onCreatePage Sample.urlResolve Sample.blog_options p
    = [OnCreatePage.DeletePage p; OnCreatePage.CreatePage p']
  /\ is_Some (OnCreatePage.context p' !! js "basePath")
  /\ OnCreatePage.context_with_basePath Sample.blog_options p'
     = OnCreatePage.context p'.
Proof.
  intros p p'.
  apply (recreated_page_has_basePath Sample.urlResolve unit Sample.blog_options p p').
  right. left.
Defined.

(** ** [onCreateNode] *)

Section OnCreateNodeMore.
Import OnCreateNode.
Variable file_node : Type.
Variable sourceInstanceName : file_node -> jsstring.
Variable getNode : jsstring -> option file_node.
Variable createNodeId : jsstring -> jsstring.
Variable createFilePath : file_node -> jsstring -> jsstring.
Variable urlResolve : jsstring -> jsstring -> jsstring.
Variable normalize_NFD : jsstring -> jsstring.
Variable JSON_stringify : fieldData -> jsstring.
Variable md5_hex : jsstring -> jsstring.

Local Abbreviation onCreateNode :=
  (onCreateNode file_node sourceInstanceName getNode createNodeId
     createFilePath urlResolve normalize_NFD JSON_stringify md5_hex).
Local Abbreviation derived_path :=
  (derived_path file_node sourceInstanceName createFilePath urlResolve).
Local Abbreviation from_content_source := (from_content_source sourceInstanceName).

Implicit Types (opts : theme_options) (node : mdx_node) (f : file_node).

(** X4. A slug or tags that are given but are no string (a YAML list of
    tags, a number) make the hook throw a [TypeError]; nothing is created. *)
Theorem non_string_slug_or_tags_throw opts node f :
  node_internal_type node = js "Mdx" ->
  getNode (node_parent node) = Some f ->
  from_content_source opts f ->
  string_or_falsy (fm_slug (node_frontmatter node)) = false
  \/ (string_or_falsy (fm_slug (node_frontmatter node)) = true
      /\ string_or_falsy (fm_tags (node_frontmatter node)) = false) ->
  onCreateNode opts node = Throw TypeError
  /\ created_nodes (onCreateNode opts node) = [].
Proof.
  intros Hty Hf Hsrc Hbad.
  assert (onCreateNode opts node = Throw TypeError) as ->; [|done].
  unfold OnCreateNode.onCreateNode.
  rewrite bool_decide_eq_true_2 by done. simpl. rewrite Hf.
  assert (bool_decide (sourceInstanceName f = postsPath opts)
          || bool_decide (sourceInstanceName f = recipesPath opts) = true) as ->.
  { destruct Hsrc as [H|H]; rewrite (bool_decide_eq_true_2 _ H);
      [done|apply orb_true_r]. }
  destruct Hbad as [Hslug|[Hslug Htags]].
  - unfold OnCreateNode.derived_path.
    destruct (fm_slug (node_frontmatter node)) as [| |[|]|z|s|items];
      try discriminate; try done.
    simpl in Hslug. apply negb_false_iff in Hslug. simpl. by rewrite Hslug.
  - destruct (derived_path_total file_node sourceInstanceName createFilePath
                urlResolve opts node f Hslug) as [p ->].
    simpl. unfold derived_tags.
    destruct (fm_tags (node_frontmatter node)) as [| |[|]|z|s|items];
      try discriminate; try done.
    simpl in Htags. apply negb_false_iff in Htags. simpl. by rewrite Htags.
Qed.

(** X5. A post without a front-matter slug whose file path starts with a
    date ([/2020.01.31.hello/]) gets as slug what follows the last dot of the
    file path, under [basePath]: the date is dropped, and so is every part
    of the name before a dot in it. *)
Theorem dated_file_slug opts node f (pre name : jsstring) :
  node_internal_type node = js "Mdx" ->
  getNode (node_parent node) = Some f ->
  from_content_source opts f ->
  truthy (fm_slug (node_frontmatter node)) = false ->
  string_or_falsy (fm_tags (node_frontmatter node)) = true ->
  createFilePath f (sourceInstanceName f) = pre ++ dot :: name ->
  starts_with_date (pre ++ dot :: name) = true ->
  Forall (fun c => c <> dot) name ->
  exists n,
    onCreateNode opts node = Ok [CreateNode n; CreateParentChildLink node (id n)]
    /\ slug (fields n) = replacePath (urlResolve (basePath opts) (js "/" ++ name)).
Proof.
  intros Hty Hf Hsrc Hslug Htags Hpath Hdate Hname.
  destruct (derived_tags_total normalize_NFD _ Htags) as [ts Hts].
  assert (derived_path opts node f = Ok (urlResolve (basePath opts) (js "/" ++ name)))
    as Hp.
  { unfold OnCreateNode.derived_path. rewrite Hslug, Hpath, Hdate.
    by rewrite pop_split. }
  eexists. split;
    [by apply (onCreateNode_creates file_node sourceInstanceName getNode
                 createNodeId createFilePath urlResolve normalize_NFD
                 JSON_stringify md5_hex opts node f
                 (urlResolve (basePath opts) (js "/" ++ name)) ts)|done].
Qed.

(** X6. A tags string that is not empty gives one tag more than it has
    commas: a comma at an end or two in a row give an empty tag. *)
Theorem one_tag_more_than_commas opts node (n : blog_post_node) (s : jsstring) :
  n ∈ created_nodes (onCreateNode opts node) ->
  fm_tags (node_frontmatter node) = VStr s ->
  s <> [] ->
  length (tags (fields n)) = S (length (List.filter (fun c => c =? comma) s)).
Proof.
  intros H Htags Hs.
  destruct (created_nodes_inv _ _ _ _ _ _ _ _ _ _ _ _ H)
    as (f & p & ts & _ & _ & _ & _ & Hts & ->).
  rewrite (derived_tags_string normalize_NFD _ s Htags Hs) in Hts.
  injection Hts as <-. simpl. by rewrite length_map, split_length.
Qed.
End OnCreateNodeMore.

Lemma non_string_slug_or_tags_throw_witness :
  let node := Sample.mdx "a" VUndefined (VArr [js "gatsby"; js "react"]) in
  Sample.onCreateNode Sample.options node = Throw TypeError
  /\ created_nodes (Sample.onCreateNode Sample.options node) = [].
Proof.
  intros node.
  apply (non_string_slug_or_tags_throw Sample.file_node Sample.sourceInstanceName
           Sample.getNode Sample.createNodeId Sample.createFilePath
           Sample.urlResolve Sample.normalize_NFD Sample.JSON_stringify
           Sample.md5_hex Sample.options node (js "posts", js "/hello/"));
    [reflexivity|reflexivity|left; reflexivity|right; split; reflexivity].
Defined.

Lemma dated_file_slug_witness :
  let node := Sample.mdx "a" VUndefined VUndefined in
  exists n,
    OnCreateNode.onCreateNode Sample.file_node Sample.sourceInstanceName
      SampleDisk.dated_getNode Sample.createNodeId Sample.createFilePath
      Sample.urlResolve Sample.normalize_NFD Sample.JSON_stringify
      Sample.md5_hex Sample.options node
    = Ok [OnCreateNode.CreateNode n;
          OnCreateNode.CreateParentChildLink node (OnCreateNode.id n)]
    /\ OnCreateNode.slug (OnCreateNode.fields n) = js "/hello".
Proof.
  intros node.
  apply (dated_file_slug Sample.file_node Sample.sourceInstanceName
           SampleDisk.dated_getNode Sample.createNodeId Sample.createFilePath
           Sample.urlResolve Sample.normalize_NFD Sample.JSON_stringify
           Sample.md5_hex Sample.options node (js "posts", js "/2020.01.31.hello/")
           (js "/2020.01.31") (js "hello/"));
    [reflexivity|reflexivity|left; reflexivity|reflexivity|reflexivity
    |reflexivity|reflexivity|].
  repeat (constructor; [discriminate|]). constructor.
Defined.

Lemma one_tag_more_than_commas_witness :
  let node := Sample.mdx "a" VUndefined (VStr (js "gatsby,,react,")) in
  exists n,
    created_nodes (Sample.onCreateNode Sample.options node) = [n]
    /\ OnCreateNode.tags (OnCreateNode.fields n)
       = [js "gatsby"; js ""; js "react"; js ""]
    /\ length (OnCreateNode.tags (OnCreateNode.fields n)) = 4%nat.
Proof.
  intros node. eexists.
  assert (created_nodes (Sample.onCreateNode Sample.options node) = [_]) as Hrun
    by reflexivity.
  split; [exact Hrun|]. split; [reflexivity|].
  apply (one_tag_more_than_commas Sample.file_node Sample.sourceInstanceName
           Sample.getNode Sample.createNodeId Sample.createFilePath
           Sample.urlResolve Sample.normalize_NFD Sample.JSON_stringify
           Sample.md5_hex Sample.options node _ (js "gatsby,,react,")
           (eq_ind_r (fun l => _ ∈ l) (list_elem_of_here _ _) Hrun));
    [reflexivity|discriminate].
Defined.

(** ** [createPages] *)

Section CreatePagesMore.
Import CreatePages.
Implicit Types (opts : theme_options) (r : query_result) (posts : list post).

Lemma post_pages_are_post_pages opts posts (pg : page) :
  pg ∈ post_pages opts posts -> is_post_page pg = true.
Proof.
  unfold post_pages. by intros (i & p & -> & _)%elem_of_lookup_imap.
Qed.

Lemma listing_pages_are_not_post_pages opts posts (pages : list page) (pg : page) :
  listing_pages opts posts = Ok pages -> pg ∈ pages -> is_post_page pg = false.
Proof.
  unfold listing_pages. destruct (array_from_length _); [|discriminate].
  simpl. intros [= <-] Hpg.
  by apply list_elem_of_In, in_map_iff in Hpg as (i & <- & _).
Qed.

(** Every page of the tag loop is a page of a tag of the loop, made with the
    loop's [global_tags]. *)
Lemma for_each_tag_shape opts (o : gmap jsstring number)
    (global_tags todo : list jsstring) (pg : page) :
  pg ∈ created (for_each_tag opts o global_tags todo) ->
  exists (t : jsstring) (numPages_perTag : number) (index : nat),
    t ∈ todo /\ pg = tag_page opts global_tags t numPages_perTag index.
Proof.
  induction todo as [|tag todo IH]; simpl; [by intros ?%elem_of_nil|].
  unfold pages_of_tag at 1.
  destruct (array_from_length _) as [k|e]; simpl; [|by intros ?%elem_of_nil].
  intros [H|H]%elem_of_app.
  - apply list_elem_of_In, in_map_iff in H as (i & <- & _).
    eexists tag, _, i. split; [left|done].
  - destruct (IH H) as (t & np & i & Ht & ->).
    exists t, np, i. split; [by right|done].
Qed.

Lemma tag_pages_shape opts posts (pg : page) :
  pg ∈ created (tag_pages opts posts) ->
  let all := flat_map tags (posts_in_tag_lists opts posts) in
  exists (t : jsstring) (numPages_perTag : number) (index : nat),
    t ∈ all /\ pg = tag_page opts (set_to_array all) t numPages_perTag index.
Proof.
  unfold tag_pages. fold (posts_in_tag_lists opts posts).
  rewrite collect_tags_fold. simpl.
  intros (t & np & i & Ht & ->)%for_each_tag_shape.
  exists t, np, i. split; [by apply set_to_array_elem|done].
Qed.

(** Where the pages of a run come from. *)
Lemma created_cases opts r (pg : page) :
  pg ∈ created (createPages opts r) ->
  exists posts,
    errors r = None /\ data r = Some posts
    /\ (pg ∈ post_pages opts posts
        \/ (exists pages, listing_pages opts posts = Ok pages /\ pg ∈ pages)
        \/ pg ∈ created (tag_pages opts posts)).
Proof.
  unfold createPages. destruct (errors r); [by intros ?%elem_of_nil|].
  destruct (data r) as [posts|]; [|by intros ?%elem_of_nil].
  intros H. exists posts. split; [done|]. split; [done|].
  destruct (listing_pages opts posts) as [pages|e]; simpl in H; [|by left].
  apply elem_of_app in H as [H|H]; [by left|].
  apply elem_of_app in H as [H|H]; [right; left; eauto|by right; right].
Qed.

(** X7. Every post of the query result gets exactly one page of its own, at
    its slug, in the order of the result, whatever its type and tags are and
    whether or not the pagination that follows throws. *)
Theorem one_page_per_post opts r posts :
  errors r = None -> data r = Some posts ->
  List.filter is_post_page (created (createPages opts r)) = post_pages opts posts
  /\ List.map path (post_pages opts posts) = List.map slug posts
  /\ Forall (fun pg => component pg = PostTemplate) (post_pages opts posts).
Proof.
  intros He Hd. split; [|split].
  - unfold createPages. rewrite He, Hd.
    destruct (listing_pages opts posts) as [pages|e] eqn:Hl; simpl.
    + rewrite !List.filter_app.
      rewrite (filter_all is_post_page (post_pages opts posts))
        by apply post_pages_are_post_pages.
      rewrite (filter_none is_post_page pages)
        by (intros pg; by apply (listing_pages_are_not_post_pages opts posts)).
      rewrite (filter_none is_post_page (created (tag_pages opts posts))).
      * by rewrite app_nil_r.
      * by intros pg (t & np & i & _ & ->)%tag_pages_shape.
    + apply filter_all, post_pages_are_post_pages.
  - unfold post_pages. apply list_eq. intros i.
    rewrite !list_lookup_fmap, list_lookup_imap.
    by destruct (posts !! i).
  - apply Forall_forall. unfold post_pages.
    by intros pg (i & p & -> & _)%elem_of_lookup_imap.
Qed.

(** X8. With no post in the result the run creates no page and completes,
    whatever [postsPerPage] is. *)
Theorem no_posts_no_pages opts r :
  errors r = None -> data r = Some [] ->
  createPages opts r = {| created := []; ending := Completed |}.
Proof.
  intros He Hd. unfold createPages. rewrite He, Hd.
  assert (listing_pages opts [] = Ok []) as ->.
  { unfold listing_pages.
    assert (filter_by_type (do_not_count_type_for_pagination opts) [] = []) as ->
      by (unfold filter_by_type; by destruct (do_not_count_type_for_pagination opts)).
    simpl. by destruct (postsPerPage opts =? 0)%Z. }
  unfold tag_pages.
  assert (filter_by_type (do_not_include_type_in_lists opts) [] = []) as ->
    by (unfold filter_by_type; by destruct (do_not_include_type_in_lists opts)).
  reflexivity.
Qed.

(** X9. With [postsPerPage] 0 and a post that counts for the pagination, the
    page count is infinite: the run throws a [RangeError] once the posts'
    own pages are created, and creates no listing page and no tag page. *)
Theorem zero_postsPerPage_throws opts r posts :
  postsPerPage opts = 0%Z ->
  errors r = None -> data r = Some posts ->
  filter_by_type (do_not_count_type_for_pagination opts) posts <> [] ->
  createPages opts r
  = {| created := post_pages opts posts; ending := Threw RangeError |}.
Proof.
  intros Hp He Hd Hm. unfold createPages. rewrite He, Hd.
  assert (listing_pages opts posts = Throw RangeError) as ->; [|done].
  unfold listing_pages. rewrite Hp.
  destruct (filter_by_type _ posts) as [|p l]; [done|]. reflexivity.
Qed.

Lemma ceil_of_quotient_negative (a : number) (p : Z) (b : Z) :
  (p < 0)%Z ->
  a = NaN \/ (exists z, a = Num z /\ (0 <= z <= b)%Z) ->
  array_from_length (ceil_of_quotient a p) = Ok 0%nat.
Proof.
  intros Hp [->|(z & -> & Hz)]; [done|]. unfold ceil_of_quotient.
  destruct (Z.eqb_spec p 0) as [?|_]; [lia|].
  assert (0 <= - z / p)%Z as Hq.
  { rewrite <- (Z.opp_involutive p) at 1. rewrite Z.div_opp_opp by lia.
    apply Z.div_pos; lia. }
  simpl. destruct (Z.ltb_spec (- (- z / p)) (2 ^ 32)) as [_|?]; [|lia].
  f_equal. lia.
Qed.

Lemma for_each_tag_nothing opts (o : gmap jsstring number)
    (global_tags todo : list jsstring) :
  (forall t, pages_of_tag opts o global_tags t = Ok []) ->
  for_each_tag opts o global_tags todo = {| created := []; ending := Completed |}.
Proof.
  intros H. induction todo as [|t todo IH]; [done|]. simpl. by rewrite H, IH.
Qed.

(** X10. With a negative [postsPerPage] every page count is zero or below:
    the run creates the posts' own pages and nothing else, and completes. *)
Theorem negative_postsPerPage_only_post_pages opts r posts :
  (postsPerPage opts < 0)%Z ->
  errors r = None -> data r = Some posts ->
  createPages opts r
  = {| created := post_pages opts posts; ending := Completed |}.
Proof.
  intros Hp He Hd. unfold createPages. rewrite He, Hd.
  assert (listing_pages opts posts = Ok []) as ->.
  { unfold listing_pages.
    rewrite (ceil_of_quotient_negative _ _
               (Z.of_nat (length (filter_by_type
                  (do_not_count_type_for_pagination opts) posts))) Hp);
      [done|right; eexists; split; [done|lia]]. }
  assert (tag_pages opts posts = {| created := []; ending := Completed |}) as ->.
  { unfold tag_pages. rewrite collect_tags_fold. simpl.
    apply for_each_tag_nothing. intros t. unfold pages_of_tag.
    rewrite (ceil_of_quotient_negative _ _
               (0 + Z.of_nat (length (flat_map tags
                  (filter_by_type (do_not_include_type_in_lists opts) posts)))) Hp);
      [done|].
    apply read_within, count_tags_within; [lia|].
    intros key v. by rewrite lookup_empty. }
  simpl. by rewrite app_nil_r.
Qed.

Lemma listing_pages_created opts r posts :
  (0 < postsPerPage opts)%Z ->
  (Z.of_nat (length posts) < 2 ^ 32)%Z ->
  errors r = None -> data r = Some posts ->
  exists n : nat,
    (postsPerPage opts * (Z.of_nat n - 1)
     < Z.of_nat (length (filter_by_type (do_not_count_type_for_pagination opts) posts))
     <= postsPerPage opts * Z.of_nat n)%Z
    /\ List.filter is_listing_page (created (createPages opts r))
       = List.map (listing_page opts posts (Num (Z.of_nat n))) (seq 0 n).
Proof.
  intros Hp Hlen He Hd.
  destruct (listing_pages_positive opts posts Hp Hlen) as (n & Hn & Hlist).
  exists n. split; [done|].
  unfold createPages. rewrite He, Hd, Hlist. simpl.
  rewrite !List.filter_app.
  rewrite (filter_none is_listing_page (post_pages opts posts))
    by (intros pg Hpg; by destruct (post_pages_kind _ _ _ Hpg)).
  rewrite (filter_none is_listing_page (created (tag_pages opts posts)))
    by apply tag_pages_kind.
  rewrite app_nil_r. simpl. apply filter_all.
  intros pg Hpg. by destruct (listing_pages_kind _ _ _ _ Hlist Hpg).
Qed.

(** X11. For a positive [postsPerPage] the windows [skip, skip + limit) of
    the listing pages cover the counted posts with no empty page: every
    listing page starts at a position below the number [m] of counted
    posts, and every position below [m] lies in the window of a listing
    page. *)
Theorem listing_windows_cover opts r posts :
  (0 < postsPerPage opts)%Z ->
  (Z.of_nat (length posts) < 2 ^ 32)%Z ->
  errors r = None -> data r = Some posts ->
  let m :=
    Z.of_nat (length (filter_by_type (do_not_count_type_for_pagination opts) posts)) in
  (forall pg b pre limit skip total current search excluded all,
      pg ∈ created (createPages opts r) ->
      context pg = ListContext b pre limit skip total current search excluded all ->
      limit = postsPerPage opts /\ (0 <= skip < m)%Z)
  /\ (forall j : Z,
        (0 <= j < m)%Z ->
        exists pg b pre limit skip total current search excluded all,
          pg ∈ created (createPages opts r)
          /\ context pg
             = ListContext b pre limit skip total current search excluded all
          /\ (skip <= j < skip + limit)%Z).
Proof.
  intros Hp Hlen He Hd m.
  destruct (listing_pages_created opts r posts Hp Hlen He Hd) as (n & Hn & Hpages).
  fold m in Hn. split.
  - intros pg b pre limit skip total current search excluded all Hpg Hctx.
    assert (In pg (List.filter is_listing_page (created (createPages opts r))))
      as Hin.
    { apply filter_In. split; [by apply list_elem_of_In|].
      unfold is_listing_page. by rewrite Hctx. }
    rewrite Hpages in Hin. apply in_map_iff in Hin as (i & <- & Hi).
    apply in_seq in Hi. simpl in Hctx. injection Hctx as _ _ <- <- _ _ _ _ _.
    split; [done|]. nia.
  - intros j Hj.
    set (i := Z.to_nat (j / postsPerPage opts)).
    pose proof (Z.div_mod j (postsPerPage opts) ltac:(lia)) as Hdiv.
    pose proof (Z.mod_pos_bound j (postsPerPage opts) Hp) as Hmod.
    assert (0 <= j / postsPerPage opts)%Z as Hq by (apply Z.div_pos; lia).
    assert (Z.of_nat i = (j / postsPerPage opts)%Z) as Hi by (subst i; lia).
    assert (i < n)%nat as Hin by nia.
    exists (listing_page opts posts (Num (Z.of_nat n)) i).
    do 9 eexists. split; [|split; [reflexivity|]].
    + assert (In (listing_page opts posts (Num (Z.of_nat n)) i)
                (List.filter is_listing_page (created (createPages opts r))))
        as [H _]%filter_In; [|by apply list_elem_of_In].
      rewrite Hpages. apply in_map, in_seq. lia.
    + rewrite Hi. nia.
Qed.

(** X12. A tag that stands in no tag list of the posts left by the
    [do_not_include_type_in_lists] filter (a tag only posts of an excluded
    type carry, say) gets no tag page. *)
Theorem unlisted_tag_has_no_page opts r posts (tag : jsstring) :
  data r = Some posts ->
  tag ∉ flat_map tags (posts_in_tag_lists opts posts) ->
  List.filter (is_tag_page_of tag) (created (createPages opts r)) = [].
Proof.
  intros Hd Htag. apply filter_none. intros pg Hpg.
  destruct (created_cases opts r pg Hpg) as (posts' & _ & Hd' & [H|[H|H]]).
  - by destruct (post_pages_kind _ _ _ H) as [_ ->].
  - destruct H as (pages & Hl & H).
    by destruct (listing_pages_kind _ _ _ _ Hl H) as [_ ->].
  - rewrite Hd in Hd'. injection Hd' as <-.
    destruct (tag_pages_shape opts posts pg H) as (t & np & i & Ht & ->).
    simpl. apply bool_decide_eq_false_2. by intros ->.
Qed.

Lemma proto_never_own (l : list jsstring) (o : gmap jsstring number) :
  o !! js "__proto__" = None ->
  fold_left count_tag l o !! js "__proto__" = None.
Proof.
  revert o. induction l as [|t l IH]; intros o Ho; [done|]. simpl.
  apply IH. destruct (decide (t = js "__proto__")) as [->|Hne].
  - unfold count_tag, set. rewrite !bool_decide_eq_true_2 by done.
    by destruct (falsy _).
  - by rewrite count_tag_other.
Qed.

Lemma for_each_tag_none opts (o : gmap jsstring number)
    (global_tags todo : list jsstring) (tag : jsstring) (pg : page) :
  pages_of_tag opts o global_tags tag = Ok [] ->
  pg ∈ created (for_each_tag opts o global_tags todo) ->
  is_tag_page_of tag pg = false.
Proof.
  intros Hnone. induction todo as [|t todo IH]; simpl; [by intros ?%elem_of_nil|].
  destruct (pages_of_tag opts o global_tags t) as [pages|e] eqn:E; simpl;
    [|by intros ?%elem_of_nil].
  intros [H|H]%elem_of_app; [|by apply IH].
  destruct (pages_of_tag_kind _ _ _ _ _ _ E H) as [_ ->].
  apply bool_decide_eq_false_2. intros ->. rewrite Hnone in E.
  injection E as <-. by apply elem_of_nil in H.
Qed.

(** X13. The tag [__proto__] never gets a tag page: its count is read from
    the prototype of [counting_by_tags] every time and is never a number. *)
Theorem proto_tag_has_no_page opts r :
  List.filter (is_tag_page_of (js "__proto__")) (created (createPages opts r)) = [].
Proof.
  apply filter_none. intros pg Hpg.
  destruct (created_cases opts r pg Hpg) as (posts & _ & Hd & [H|[H|H]]).
  - by destruct (post_pages_kind _ _ _ H) as [_ ->].
  - destruct H as (pages & Hl & H).
    by destruct (listing_pages_kind _ _ _ _ Hl H) as [_ ->].
  - revert H. unfold tag_pages. rewrite collect_tags_fold. simpl.
    apply for_each_tag_none. unfold pages_of_tag, get.
    rewrite proto_never_own by apply lookup_empty. reflexivity.
Qed.

(** What [counting_by_tags] holds under the name of an inherited data
    property after the name was counted [k] times: the first count reads the
    inherited function and stores [NaN], the second starts again from 0. *)
Local Abbreviation held_inherited k :=
  (match k%nat with
   | O => None
   | S O => Some NaN
   | S (S j) => Some (Num (Z.of_nat (S j)))
   end).

Lemma count_tag_inherited (o : gmap jsstring number) (tag : jsstring) (k : nat) :
  array_includes object_prototype_keys tag = true ->
  tag <> js "__proto__" ->
  o !! tag = held_inherited k ->
  count_tag o tag !! tag = held_inherited (S k).
Proof.
  intros Hin Hproto Ho. unfold count_tag. destruct k as [|[|j]].
  - assert (get o tag = Inherited) as Hget by (unfold get; by rewrite Ho, Hin).
    rewrite Hget. cbn [falsy]. rewrite Hget. cbn [to_number increment].
    rewrite set_insert by done. by rewrite lookup_insert_eq.
  - rewrite (get_own o tag _ Ho). cbn [falsy].
    rewrite !set_insert by done.
    rewrite (get_own _ tag (Num 0)) by apply lookup_insert_eq.
    by rewrite lookup_insert_eq.
  - rewrite !(get_own o tag _ Ho). cbn [falsy].
    destruct (Z.eqb_spec (Z.of_nat (S j)) 0) as [?|_]; [lia|].
    rewrite (get_own o tag _ Ho). cbn [to_number increment].
    rewrite set_insert by done. rewrite lookup_insert_eq.
    do 2 f_equal. lia.
Qed.

Lemma count_tags_inherited (l : list jsstring) (o : gmap jsstring number)
    (tag : jsstring) (k : nat) :
  array_includes object_prototype_keys tag = true ->
  tag <> js "__proto__" ->
  o !! tag = held_inherited k ->
  fold_left count_tag l o !! tag
  = held_inherited
      (k + length (List.filter (fun t : jsstring => bool_decide (t = tag)) l)).
Proof.
  intros Hin Hproto. revert o k. induction l as [|t l IH]; intros o k Ho; simpl.
  - by rewrite Nat.add_0_r.
  - case_bool_decide as E.
    + subst t. simpl length. rewrite Nat.add_succ_r.
      apply (IH _ (S k)). by apply count_tag_inherited.
    + apply IH. by rewrite count_tag_other.
Qed.

Lemma tag_filter_of_run opts r posts (tag : jsstring) :
  (0 < postsPerPage opts)%Z ->
  (Z.of_nat (length posts) < 2 ^ 32)%Z ->
  (Z.of_nat (length (flat_map tags (posts_in_tag_lists opts posts))) < 2 ^ 32)%Z ->
  errors r = None -> data r = Some posts ->
  let all := flat_map tags (posts_in_tag_lists opts posts) in
  ending (createPages opts r) = Completed
  /\ List.filter (is_tag_page_of tag) (created (createPages opts r))
     = if bool_decide (tag ∈ all)
       then match pages_of_tag opts (fold_left count_tag all ∅)
                    (set_to_array all) tag with
            | Ok pages => pages
            | Throw _ => []
            end
       else [].
Proof.
  intros Hp Hlen Hlen' He Hd all.
  destruct (tag_pages_filter opts posts tag Hp Hlen') as [Hend Hfilter].
  destruct (listing_pages_positive opts posts Hp Hlen) as (k & _ & Hlist).
  unfold createPages. rewrite He, Hd, Hlist. simpl. split; [done|].
  rewrite !List.filter_app.
  rewrite (filter_none _ (post_pages opts posts))
    by (intros pg Hpg; by destruct (post_pages_kind _ _ _ Hpg)).
  rewrite (filter_none _ (List.map _ (seq 0 k)))
    by (intros pg Hpg; by destruct (listing_pages_kind _ _ _ _ Hlist Hpg)).
  simpl. by rewrite Hfilter.
Qed.

(** X14. A tag named like an inherited property other than [__proto__]
    ([constructor], [toString], [valueOf], ...) is counted one short: with
    [k] occurrences in the tag lists of the listed posts it gets
    [ceil((k - 1) / postsPerPage)] pages, none when it occurs once. *)
Theorem inherited_name_tag_counted_one_short opts r posts (tag : jsstring) :
  (0 < postsPerPage opts)%Z ->
  (Z.of_nat (length posts) < 2 ^ 32)%Z ->
  (Z.of_nat (length (flat_map tags (posts_in_tag_lists opts posts))) < 2 ^ 32)%Z ->
  errors r = None -> data r = Some posts ->
  array_includes object_prototype_keys tag = true ->
  tag <> js "__proto__" ->
  (0 < occurrences tag (posts_in_tag_lists opts posts))%nat ->
  exists n : nat,
    (postsPerPage opts * (Z.of_nat n - 1)
     < Z.of_nat (occurrences tag (posts_in_tag_lists opts posts)) - 1
     <= postsPerPage opts * Z.of_nat n)%Z
    /\ length (List.filter (is_tag_page_of tag) (created (createPages opts r))) = n.
Proof.
  intros Hp Hlen Hlen' He Hd Hin Hproto Hocc.
  destruct (tag_filter_of_run opts r posts tag Hp Hlen Hlen' He Hd) as [_ ->].
  unfold occurrences in *.
  set (all := flat_map tags (posts_in_tag_lists opts posts)) in *.
  rewrite bool_decide_eq_true_2 by (by apply times_elem).
  pose proof (count_tags_inherited all ∅ tag 0 Hin Hproto (lookup_empty tag)) as Hc.
  simpl in Hc.
  assert (length (List.filter (fun t : jsstring => bool_decide (t = tag)) all)
          <= length all)%nat as Hle by apply List.filter_length_le.
  destruct (length (List.filter _ all)) as [|[|j]] eqn:Ek; [lia| |].
  - exists 0%nat. split; [lia|].
    unfold pages_of_tag. by rewrite (get_own _ tag _ Hc).
  - destruct (ceil_of_quotient_positive (Z.of_nat (S j)) (postsPerPage opts))
      as (n & Hceil & Hn & Hnj); [lia|done|].
    exists n. split; [lia|].
    unfold pages_of_tag. rewrite (get_own _ tag _ Hc). cbn [to_number].
    rewrite Hceil. simpl.
    destruct (Z.ltb_spec (Z.of_nat n) (2 ^ 32)); [|lia]. simpl.
    by rewrite length_map, length_seq, Nat2Z.id.
Qed.

(** X15. Every tag page carries the same [global_tags]: the tags of the
    listed posts, each once, the page's own tag among them; its [pre_path]
    is [basePath + tagsPath + "/" + tag] and it is marked as a tag search. *)
Theorem tag_pages_share_global_tags opts r posts (pg : page)
    (b pre : jsstring) (limit skip : Z) (total : number) (current : Z)
    (tag : jsstring) (g : list jsstring) (search : bool) :
  data r = Some posts ->
  pg ∈ created (createPages opts r) ->
  context pg = TagContext b pre limit skip total current tag g search ->
  let all := flat_map tags (posts_in_tag_lists opts posts) in
  g = set_to_array all
  /\ NoDup g
  /\ (forall t, t ∈ g <-> t ∈ all)
  /\ tag ∈ g
  /\ pre = basePath opts ++ tagsPath opts ++ js "/" ++ tag
  /\ search = true.
Proof.
  intros Hd Hpg Hctx all.
  destruct (created_cases opts r pg Hpg) as (posts' & _ & Hd' & [H|[H|H]]).
  - apply post_pages_are_post_pages in H. unfold is_post_page in H.
    by rewrite Hctx in H.
  - destruct H as (pages & Hl & H).
    destruct (listing_pages_kind _ _ _ _ Hl H) as [H' _].
    unfold is_listing_page in H'. by rewrite Hctx in H'.
  - rewrite Hd in Hd'. injection Hd' as <-.
    destruct (tag_pages_shape opts posts pg H) as (t & np & i & Ht & ->).
    simpl in Hctx. injection Hctx as _ <- _ _ _ _ <- <- <-. fold all.
    split; [done|]. split; [apply unique_after_NoDup|].
    split; [apply set_to_array_elem|].
    split; [by apply set_to_array_elem|done].
Qed.
End CreatePagesMore.

Lemma one_page_per_post_witness :
  let opts := Sample.blog_options in
  let posts := [Sample.blog_post "c" "recipe" [js "soup"];
                Sample.blog_post "b" "draft" [];
                Sample.blog_post "a" "" [js "gatsby"]] in
  List.map CreatePages.path
    (List.filter is_post_page
       (CreatePages.created (CreatePages.createPages opts (Sample.answer posts))))
  = [js "/c"; js "/b"; js "/a"].
Proof.
  intros opts posts.
  destruct (one_page_per_post opts (Sample.answer posts) posts)
    as (Hpages & Hpaths & _); [reflexivity|reflexivity|].
  rewrite Hpages, Hpaths. reflexivity.
Defined.

Lemma no_posts_no_pages_witness :
  CreatePages.createPages Sample.blog_options (Sample.answer [])
  = {| CreatePages.created := []; CreatePages.ending := CreatePages.Completed |}.
Proof. apply no_posts_no_pages; reflexivity. Defined.

Lemma zero_postsPerPage_throws_witness :
  let opts :=
    {| basePath := js "/"; postsPath := js "posts"; recipesPath := js "recipes";
       tagsPath := js "tags"; postsPerPage := 0%Z;
       do_not_count_type_for_pagination := None;
       do_not_include_type_in_lists := None;
       do_not_create_tag_page_for := None |} in
  let posts := [Sample.blog_post "b" "" [js "gatsby"]; Sample.blog_post "a" "" []] in
  List.map CreatePages.path
    (CreatePages.created (CreatePages.createPages opts (Sample.answer posts)))
  = [js "/b"; js "/a"]
  /\ CreatePages.ending (CreatePages.createPages opts (Sample.answer posts))
     = CreatePages.Threw RangeError.
Proof.
  intros opts posts.
  rewrite (zero_postsPerPage_throws opts (Sample.answer posts) posts);
    [split; reflexivity|reflexivity|reflexivity|reflexivity|discriminate].
Defined.

Lemma negative_postsPerPage_only_post_pages_witness :
  let opts :=
    {| basePath := js "/"; postsPath := js "posts"; recipesPath := js "recipes";
       tagsPath := js "tags"; postsPerPage := (-2)%Z;
       do_not_count_type_for_pagination := None;
       do_not_include_type_in_lists := None;
       do_not_create_tag_page_for := None |} in
  let posts := [Sample.blog_post "b" "" [js "gatsby"]; Sample.blog_post "a" "" []] in
  List.map CreatePages.path
    (CreatePages.created (CreatePages.createPages opts (Sample.answer posts)))
  = [js "/b"; js "/a"]
  /\ CreatePages.ending (CreatePages.createPages opts (Sample.answer posts))
     = CreatePages.Completed.
Proof.
  intros opts posts.
  rewrite (negative_postsPerPage_only_post_pages opts (Sample.answer posts) posts);
    [split; reflexivity|reflexivity|reflexivity|reflexivity].
Defined.

Lemma listing_windows_cover_witness :
  let posts := [Sample.blog_post "e" "" []; Sample.blog_post "d" "recipe" [];
                Sample.blog_post "c" "" []; Sample.blog_post "b" "" [];
                Sample.blog_post "a" "" []] in
  exists pg b pre limit skip total current search excluded all,
    pg ∈ CreatePages.created
           (CreatePages.createPages Sample.blog_options (Sample.answer posts))
    /\ CreatePages.context pg
       = CreatePages.ListContext b pre limit skip total current search excluded all
    /\ (skip <= 3 < skip + limit)%Z.
Proof.
  intros posts.
  destruct (listing_windows_cover Sample.blog_options (Sample.answer posts) posts)
    as [_ Hcover]; [reflexivity|reflexivity|reflexivity|reflexivity|].
  apply (Hcover 3%Z). vm_compute. split; [discriminate|reflexivity].
Defined.

Lemma unlisted_tag_has_no_page_witness :
  let posts := [Sample.blog_post "b" "draft" [js "secret"];
                Sample.blog_post "a" "" [js "gatsby"]] in
  List.filter (is_tag_page_of (js "secret"))
    (CreatePages.created
       (CreatePages.createPages Sample.blog_options (Sample.answer posts)))
  = [].
Proof.
  intros posts.
  apply (unlisted_tag_has_no_page Sample.blog_options (Sample.answer posts) posts);
    [reflexivity|].
  intros H%list_elem_of_In. simpl in H. destruct H as [H|[]]. discriminate H.
Defined.

Lemma inherited_name_tag_counted_one_short_witness :
  let posts := [Sample.blog_post "c" "" [js "constructor"];
                Sample.blog_post "b" "" [js "constructor"];
                Sample.blog_post "a" "" [js "constructor"]] in
  length
    (List.filter (is_tag_page_of (js "constructor"))
       (CreatePages.created
          (CreatePages.createPages Sample.options (Sample.answer posts))))
  = 2%nat.
Proof.
  intros posts.
  destruct (inherited_name_tag_counted_one_short Sample.options
              (Sample.answer posts) posts (js "constructor"))
    as (n & Hn & ->);
    [reflexivity|reflexivity|reflexivity|reflexivity|reflexivity|reflexivity
    |discriminate|vm_compute; lia|].
  assert (occurrences (js "constructor") (posts_in_tag_lists Sample.options posts)
          = 3%nat) as Hocc by reflexivity.
  rewrite Hocc in Hn. simpl in Hn. lia.
Defined.

Lemma tag_pages_share_global_tags_witness :
  let posts := [Sample.blog_post "b" "" [js "gatsby"; js "react"];
                Sample.blog_post "a" "" [js "gatsby"]] in
  let g := [js "gatsby"; js "react"] in
  let pg := CreatePages.tag_page Sample.options g (js "react")
              (CreatePages.Num 1) 0 in
  pg ∈ CreatePages.created
         (CreatePages.createPages Sample.options (Sample.answer posts))
  /\ g = CreatePages.set_to_array
           (flat_map CreatePages.tags (posts_in_tag_lists Sample.options posts))
  /\ NoDup g
  /\ js "react" ∈ g.
Proof.
  intros posts g pg.
  assert (pg ∈ CreatePages.created
                 (CreatePages.createPages Sample.options (Sample.answer posts)))
    as Hpg.
  { apply list_elem_of_In. vm_compute. do 6 right. left. reflexivity. }
  split; [exact Hpg|].
  destruct (tag_pages_share_global_tags Sample.options (Sample.answer posts) posts
              pg _ _ _ _ _ _ _ _ _ eq_refl Hpg eq_refl)
    as (Hg & Hnd & _ & Htag & _).
  split; [exact Hg|]. split; [exact Hnd|exact Htag].
Defined.

(** ** [onPreBootstrap] *)

Section OnPreBootstrapFacts.
Import OnPreBootstrap.
Variable disk : Type.
Variable existsSync : disk -> jsstring -> bool.
Variable mkdirp_sync : disk -> jsstring -> disk * option jsstring.
Variable join : jsstring -> jsstring -> jsstring.

Local Abbreviation for_each_dir := (for_each_dir disk existsSync mkdirp_sync).
Local Abbreviation onPreBootstrap :=
  (onPreBootstrap disk existsSync mkdirp_sync join).

Implicit Types (d : disk) (dirs folders : list jsstring) (dir directory : jsstring).

Lemma for_each_dir_existing d dirs :
  (forall dir, dir ∈ dirs -> existsSync d dir = true) ->
  made (calls (for_each_dir d dirs)) = []
  /\ after (for_each_dir d dirs) = d
  /\ thrown (for_each_dir d dirs) = None
  /\ length (calls (for_each_dir d dirs)) = length dirs.
Proof.
  induction dirs as [|dir dirs IH]; intros H; [done|]. simpl.
  rewrite (H dir) by left. simpl.
  destruct IH as (IH1 & IH2 & IH3 & IH4); [intros x Hx; apply H; by right|].
  by rewrite IH4.
Qed.

(** X16. When every folder to check exists already the hook makes no
    directory and leaves the file system as it is; it only logs one debug
    line for each folder. *)
Theorem existing_folders_are_left_alone directory folders d :
  (forall el, el ∈ folders -> existsSync d (join directory el) = true) ->
  made (calls (onPreBootstrap directory folders d)) = []
  /\ after (onPreBootstrap directory folders d) = d
  /\ thrown (onPreBootstrap directory folders d) = None
  /\ length (calls (onPreBootstrap directory folders d)) = length folders.
Proof.
  intros H. unfold OnPreBootstrap.onPreBootstrap.
  rewrite <- (length_map (fun el => join directory el) folders).
  apply for_each_dir_existing. intros dir Hdir.
  apply list_elem_of_In, in_map_iff in Hdir as (el & <- & Hel).
  apply H. by apply list_elem_of_In.
Qed.

(** What the hook relies on in [mkdirp.sync]: a call that does not throw
    leaves the directory in place, and no call removes a path. *)
Hypothesis mkdirp_makes :
  forall d dir, (mkdirp_sync d dir).2 = None ->
    existsSync (mkdirp_sync d dir).1 dir = true.
Hypothesis mkdirp_keeps :
  forall d dir p, existsSync d p = true ->
    existsSync (mkdirp_sync d dir).1 p = true.

Lemma for_each_dir_keeps d dirs (p : jsstring) :
  existsSync d p = true -> existsSync (after (for_each_dir d dirs)) p = true.
Proof.
  revert d. induction dirs as [|dir dirs IH]; intros d Hp; [done|]. simpl.
  destruct (existsSync d dir); simpl; [by apply IH|].
  pose proof (mkdirp_keeps d dir p Hp) as Hp'.
  destruct (mkdirp_sync d dir) as [d' [code|]]; simpl in *; [done|by apply IH].
Qed.

Lemma for_each_dir_all_exist d dirs :
  thrown (for_each_dir d dirs) = None ->
  forall dir, dir ∈ dirs -> existsSync (after (for_each_dir d dirs)) dir = true.
Proof.
  revert d. induction dirs as [|dir dirs IH]; intros d Hok x Hx;
    [by apply elem_of_nil in Hx|].
  simpl in *. destruct (existsSync d dir) eqn:E; simpl in *.
  - apply elem_of_cons in Hx as [->|Hx]; [by apply for_each_dir_keeps|by apply IH].
  - pose proof (mkdirp_makes d dir) as Hmade.
    destruct (mkdirp_sync d dir) as [d' [code|]]; simpl in *; [done|].
    apply elem_of_cons in Hx as [->|Hx]; [|by apply IH].
    apply for_each_dir_keeps. by apply Hmade.
Qed.

(** X17. The hook never loses a path that existed, and after a run that did
    not throw every folder to check exists under the site's directory. *)
Theorem folders_exist_afterwards directory folders d :
  (forall p, existsSync d p = true ->
     existsSync (after (onPreBootstrap directory folders d)) p = true)
  /\ (thrown (onPreBootstrap directory folders d) = None ->
      forall el, el ∈ folders ->
        existsSync (after (onPreBootstrap directory folders d))
          (join directory el) = true).
Proof.
  unfold OnPreBootstrap.onPreBootstrap. split.
  - intros p. apply for_each_dir_keeps.
  - intros Hok el Hel. apply for_each_dir_all_exist; [done|].
    apply list_elem_of_In, in_map. by apply list_elem_of_In.
Qed.

(** X18. Running the hook again after a run that did not throw makes no
    directory and leaves the file system as the first run left it. *)
Theorem onPreBootstrap_twice directory folders d :
  thrown (onPreBootstrap directory folders d) = None ->
  let d' := after (onPreBootstrap directory folders d) in
  made (calls (onPreBootstrap directory folders d')) = []
  /\ after (onPreBootstrap directory folders d') = d'
  /\ thrown (onPreBootstrap directory folders d') = None.
Proof.
  intros Hok d'. unfold OnPreBootstrap.onPreBootstrap in *.
  destruct (for_each_dir_existing d' (List.map (fun el => join directory el) folders))
    as (H1 & H2 & H3 & _); [|done].
  by apply for_each_dir_all_exist.
Qed.

Lemma for_each_dir_made d dirs (dir : jsstring) :
  dir ∈ made (calls (for_each_dir d dirs)) ->
  existsSync d dir = false /\ dir ∈ dirs.
Proof.
  revert d. induction dirs as [|x dirs IH]; intros d; simpl;
    [by intros ?%elem_of_nil|].
  destruct (existsSync d x) eqn:E; simpl.
  - intros [H1 H2]%IH. split; [done|by right].
  - pose proof (mkdirp_keeps d x dir) as Hkeeps.
    destruct (mkdirp_sync d x) as [d1 [code|]]; simpl in *.
    + intros ->%list_elem_of_singleton. split; [done|left].
    + intros [->|[H1 H2]%IH]%elem_of_cons; [split; [done|left]|].
      split; [|by right].
      destruct (existsSync d dir); [|done]. rewrite Hkeeps in H1; done.
Qed.

Lemma for_each_dir_made_NoDup d dirs :
  NoDup (made (calls (for_each_dir d dirs))).
Proof.
  revert d. induction dirs as [|x dirs IH]; intros d; simpl; [constructor|].
  destruct (existsSync d x) eqn:E; simpl; [apply IH|].
  pose proof (mkdirp_makes d x) as Hmakes.
  destruct (mkdirp_sync d x) as [d1 [code|]]; simpl in *.
  - apply NoDup_singleton.
  - constructor; [|apply IH].
    intros [H _]%for_each_dir_made. rewrite Hmakes in H; done.
Qed.

(** X19. The hook asks [mkdirp] only for folders to check that did not exist
    when it started, and for each of them once, also when a folder is
    listed twice. *)
Theorem only_missing_folders_are_made directory folders d :
  NoDup (made (calls (onPreBootstrap directory folders d)))
  /\ forall dir,
      dir ∈ made (calls (onPreBootstrap directory folders d)) ->
      existsSync d dir = false
      /\ exists el, el ∈ folders /\ dir = join directory el.
Proof.
  unfold OnPreBootstrap.onPreBootstrap. split; [apply for_each_dir_made_NoDup|].
  intros dir [H1 H2]%for_each_dir_made. split; [done|].
  apply list_elem_of_In, in_map_iff in H2 as (el & <- & Hel).
  exists el. split; [by apply list_elem_of_In|done].
Qed.
End OnPreBootstrapFacts.

Lemma sample_mkdirp_makes (d : SampleDisk.disk) (dir : jsstring) :
  (SampleDisk.mkdirp_sync d dir).2 = None ->
  SampleDisk.existsSync (SampleDisk.mkdirp_sync d dir).1 dir = true.
Proof.
  intros _. unfold SampleDisk.existsSync. simpl.
  by rewrite bool_decide_eq_true_2.
Qed.

Lemma sample_mkdirp_keeps (d : SampleDisk.disk) (dir p : jsstring) :
  SampleDisk.existsSync d p = true ->
  SampleDisk.existsSync (SampleDisk.mkdirp_sync d dir).1 p = true.
Proof.
  unfold SampleDisk.existsSync. simpl. intros ->. apply orb_true_r.
Qed.

Lemma existing_folders_are_left_alone_witness :
  let d := [js "/site/content/posts"; js "/site/content/assets"] in
  let r := SampleDisk.onPreBootstrap (js "/site")
             [js "content/posts"; js "content/assets"] d in
  OnPreBootstrap.calls r
  = [OnPreBootstrap.Debug (js "Initializing /site/content/posts directory");
     OnPreBootstrap.Debug (js "Initializing /site/content/assets directory")]
  /\ OnPreBootstrap.made (OnPreBootstrap.calls r) = []
  /\ OnPreBootstrap.after r = d.
Proof.
  intros d r. split; [reflexivity|].
  destruct (existing_folders_are_left_alone SampleDisk.disk SampleDisk.existsSync
              SampleDisk.mkdirp_sync SampleDisk.join (js "/site")
              [js "content/posts"; js "content/assets"] d)
    as (H1 & H2 & _).
  - intros el Hel. apply list_elem_of_In in Hel. simpl in Hel.
    destruct Hel as [<-|[<-|[]]]; reflexivity.
  - split; [exact H1|exact H2].
Defined.

Lemma folders_exist_afterwards_witness :
  let d := [js "/site/content/posts"] in
  let r := SampleDisk.onPreBootstrap (js "/site")
             [js "content/posts"; js "content/assets"] d in
  OnPreBootstrap.made (OnPreBootstrap.calls r) = [js "/site/content/assets"]
  /\ SampleDisk.existsSync (OnPreBootstrap.after r) (js "/site/content/posts") = true
  /\ SampleDisk.existsSync (OnPreBootstrap.after r) (js "/site/content/assets") = true.
Proof.
  intros d r. split; [reflexivity|].
  destruct (folders_exist_afterwards SampleDisk.disk SampleDisk.existsSync
              SampleDisk.mkdirp_sync SampleDisk.join sample_mkdirp_makes
              sample_mkdirp_keeps (js "/site")
              [js "content/posts"; js "content/assets"] d)
    as [Hkeeps Hall].
  split.
  - apply Hkeeps. reflexivity.
  - apply Hall; [reflexivity|]. right. left.
Defined.

Lemma onPreBootstrap_twice_witness :
  let folders := [js "content/posts"; js "content/assets"] in
  let first := SampleDisk.onPreBootstrap (js "/site") folders [] in
  let second :=
    SampleDisk.onPreBootstrap (js "/site") folders (OnPreBootstrap.after first) in
  OnPreBootstrap.made (OnPreBootstrap.calls first)
  = [js "/site/content/posts"; js "/site/content/assets"]
  /\ OnPreBootstrap.made (OnPreBootstrap.calls second) = []
  /\ OnPreBootstrap.after second = OnPreBootstrap.after first.
Proof.
  intros folders first second. split; [reflexivity|].
  destruct (onPreBootstrap_twice SampleDisk.disk SampleDisk.existsSync
              SampleDisk.mkdirp_sync SampleDisk.join sample_mkdirp_makes
              sample_mkdirp_keeps (js "/site") folders [])
    as (H1 & H2 & _); [reflexivity|].
  split; [exact H1|exact H2].
Defined.

Lemma only_missing_folders_are_made_witness :
  let r := SampleDisk.onPreBootstrap (js "/site")
             [js "content/posts"; js "content/assets"; js "content/posts"]
             [js "/site/content/assets"] in
  OnPreBootstrap.made (OnPreBootstrap.calls r) = [js "/site/content/posts"]
  /\ NoDup (OnPreBootstrap.made (OnPreBootstrap.calls r))
  /\ SampleDisk.existsSync [js "/site/content/assets"] (js "/site/content/posts")
     = false.
Proof.
  intros r. split; [reflexivity|].
  destruct (only_missing_folders_are_made SampleDisk.disk SampleDisk.existsSync
              SampleDisk.mkdirp_sync SampleDisk.join sample_mkdirp_makes
              sample_mkdirp_keeps (js "/site")
              [js "content/posts"; js "content/assets"; js "content/posts"]
              [js "/site/content/assets"])
    as [Hnd Hmade].
  split; [exact Hnd|].
  apply (Hmade (js "/site/content/posts")). left.
Defined.
